(** * SarkariSetu scraper: the extraction logic of [scrapers/scraper.py]

    A shallow embedding of [SarkariScraper.scrape_aggregator_list] and
    [SarkariScraper.scrape_recruitment_detail], and the properties of the
    listing and detail records they build.

    Layout:
    - [Python strings]: [str] as a sequence of code points, [strip], [in],
      [lower], and the regular expression of the listing extractor;
    - [Python dictionaries]: insertion-ordered, as [tables] is;
    - [Documents]: the tree the HTML parser hands to the scraper, with the
      CSS queries, [text()], [attributes] and [parent] the scraper uses;
    - [The scraper]: [fetch] and the two [scrape_*] methods, run against a
      [world] (what the network answers and what the clock reads);
    - the vocabulary of the properties and the example pages;
    - the properties: the loops in closed form, then the listing
      extractor, the detail extractor, and what both have in common.

    What the Python runtime and the parser library decide is a parameter
    ([runtime]); every property holds whatever it is. *)

From Stdlib Require Import String Ascii Bool NArith ZArith DecimalString.
From Stdlib Require Import List Lia.
Import ListNotations.

Set Warnings "-register-all".

(* ================================================================= *)
(** ** Python strings *)

(** A Python [str] is a sequence of Unicode code points. *)
Definition str := list N.

(** An ASCII literal of the source, as a [str]. *)
Definition lit (s : string) : str := map N_of_ascii (list_ascii_of_string s).
Arguments lit s%_string.

(** U+2013, the dash of the literals ["– Out"] and ["– Pending"]. *)
Definition en_dash : N := 8211%N.

Definition between (lo hi c : N) : bool := ((lo <=? c) && (c <=? hi))%N.

(** [str.isspace] on one code point; [\s] of [re] and [str.strip] use the
    same table.  The table is small and is written out in full. *)
Definition isspace (c : N) : bool :=
  between 9 13 c || between 28 32 c || (c =? 133)%N || (c =? 160)%N
  || (c =? 5760)%N || between 8192 8202 c || (c =? 8232)%N || (c =? 8233)%N
  || (c =? 8239)%N || (c =? 8287)%N || (c =? 12288)%N.

(** What the scraper takes from the Python runtime and the parser library
    rather than from the repository, as parameters of the model:
    - the part of the Unicode character database reached through [re] and
      [str.lower]: the ASCII range is written out below, and the three
      fields are consulted beyond it only;
    - the order in which the parser reports the matches of a selector
      group such as ["td, th"]: in document order, or selector by selector
      (all [td], then all [th]). *)
Record runtime := {
  (** [str.isdecimal] (category Nd) of a code point above 127 *)
  isdecimal_hi : N -> bool;
  (** [str.isalnum] of a code point above 127 *)
  isalnum_hi : N -> bool;
  (** [str.lower] of a string that holds a code point above 127 *)
  lower_hi : str -> str;
  (** the matches of a selector group come in document order *)
  groups_in_document_order : bool
}.

(** A runtime with nothing beyond ASCII: enough to run the scraper on
    ASCII pages. *)
Definition plain : runtime :=
  {| isdecimal_hi := fun _ => false;
     isalnum_hi := fun _ => false;
     lower_hi := fun s => s;
     groups_in_document_order := false |}.

(** The same with selector groups answered in document order. *)
Definition in_order : runtime :=
  {| isdecimal_hi := fun _ => false;
     isalnum_hi := fun _ => false;
     lower_hi := fun s => s;
     groups_in_document_order := true |}.

Definition is_ascii (c : N) : bool := (c <? 128)%N.

Section Strings.

Variable R : runtime.

(** [\d] of a [str] pattern. *)
Definition isdigit (c : N) : bool :=
  if is_ascii c then between 48 57 c else isdecimal_hi R c.

(** [\w] of a [str] pattern: alphanumeric or the underscore. *)
Definition isword (c : N) : bool :=
  if is_ascii c
  then between 48 57 c || between 65 90 c || between 97 122 c || (c =? 95)%N
  else isalnum_hi R c.

Definition lower_ascii (c : N) : N :=
  if between 65 90 c then (c + 32)%N else c.

(** [s.lower()]. *)
Definition lower (s : str) : str :=
  if forallb is_ascii s then map lower_ascii s else lower_hi R s.

End Strings.

Fixpoint dropwhile (p : N -> bool) (s : str) : str :=
  match s with
  | [] => []
  | c :: s' => if p c then dropwhile p s' else s
  end.

(** [s.strip()]: leading and trailing whitespace removed. *)
Definition strip (s : str) : str :=
  rev (dropwhile isspace (rev (dropwhile isspace s))).

Fixpoint starts_with (p s : str) : bool :=
  match p, s with
  | [], _ => true
  | _ :: _, [] => false
  | a :: p', b :: s' => (a =? b)%N && starts_with p' s'
  end.

(** [sub in s]. *)
Fixpoint contains (sub s : str) : bool :=
  starts_with sub s ||
  match s with
  | [] => false
  | _ :: s' => contains sub s'
  end.

(** Truth value of a [str]: the empty string is false. *)
Definition truthy {A : Type} (l : list A) : bool :=
  match l with [] => false | _ :: _ => true end.

(* ----------------------------------------------------------------- *)
(** *** The regular expression of the listing extractor *)

(** The pieces a pattern of the scraper is made of: a literal, a greedy
    run [c{lo,}] of a character class, and a counted run [c{n}]. *)
Inductive atom :=
| Lit (l : str)
| Many (cls : N -> bool) (lo : nat)
| Exactly (cls : N -> bool) (n : nat).

(** Length of the longest prefix of [s] in the class. *)
Fixpoint span (cls : N -> bool) (s : str) : nat :=
  match s with
  | c :: s' => if cls c then S (span cls s') else 0
  | [] => 0
  end.

(** A greedy quantifier tries the longest run first and gives characters
    back one at a time, down to [lo]. *)
Fixpoint give_back (k : nat -> option (list nat)) (lo n : nat)
  : option (list nat) :=
  if (n <? lo)%nat then None
  else match k n with
       | Some r => Some (n :: r)
       | None => match n with
                 | O => None
                 | S n' => give_back k lo n'
                 end
       end.

(** The backtracking matcher anchored at the start of [s]: the number of
    characters each atom consumed in the first successful attempt. *)
Fixpoint match_here (p : list atom) (s : str) : option (list nat) :=
  match p with
  | [] => Some []
  | Lit l :: p' =>
      if starts_with l s
      then option_map (cons (length l)) (match_here p' (skipn (length l) s))
      else None
  | Many cls lo :: p' =>
      give_back (fun n => match_here p' (skipn n s)) lo (span cls s)
  | Exactly cls n :: p' =>
      if (n <=? span cls s)%nat
      then option_map (cons n) (match_here p' (skipn n s))
      else None
  end.

(** [re.search]: the match at the leftmost position that has one, as the
    text from that position on and the atoms' lengths. *)
Fixpoint re_search (p : list atom) (s : str) : option (str * list nat) :=
  match match_here p s with
  | Some ls => Some (s, ls)
  | None => match s with
            | [] => None
            | _ :: s' => re_search p s'
            end
  end.

Section Pattern.

Variable R : runtime.

(** [r'Last Date:\s*(\d+\s+\w+\s+\d{4})']: two atoms before the group,
    five inside it. *)
Definition last_date_prefix : list atom :=
  [Lit (lit "Last Date:"); Many isspace 0].

Definition last_date_group : list atom :=
  [Many (isdigit R) 1; Many isspace 1; Many (isword R) 1; Many isspace 1;
   Exactly (isdigit R) 4].

Definition last_date_re : list atom := last_date_prefix ++ last_date_group.

(** [re.search(r'Last Date:\s*(\d+\s+\w+\s+\d{4})', s)] followed by
    [match.group(1)]; [None] when there is no match. *)
Definition search_last_date (s : str) : option str :=
  match re_search last_date_re s with
  | Some (from, ls) =>
      let before := list_sum (firstn (length last_date_prefix) ls) in
      let inside := list_sum (skipn (length last_date_prefix) ls) in
      Some (firstn inside (skipn before from))
  | None => None
  end.

End Pattern.

(* ================================================================= *)
(** ** Python dictionaries *)

(** A [dict] keeps its keys in insertion order; [d[k] = v] replaces the
    value of a key that is present, in place, and appends a new key. *)
Section Dict.

Context {K V : Type} (key_eqb : K -> K -> bool).

Fixpoint dict_get (d : list (K * V)) (k : K) : option V :=
  match d with
  | [] => None
  | (k', v) :: d' => if key_eqb k k' then Some v else dict_get d' k
  end.

Fixpoint dict_set (d : list (K * V)) (k : K) (v : V) : list (K * V) :=
  match d with
  | [] => [(k, v)]
  | (k', v') :: d' =>
      if key_eqb k k' then (k', v) :: d' else (k', v') :: dict_set d' k v
  end.

End Dict.

Fixpoint str_eqb (a b : str) : bool :=
  match a, b with
  | [], [] => true
  | x :: a', y :: b' => (x =? y)%N && str_eqb a' b'
  | _, _ => false
  end.

(* ================================================================= *)
(** ** Documents *)

(** The tree [HTMLParser(html)] builds: text nodes and elements.  An
    attribute written without a value ([<a href>]) has the value [None],
    as the parser's [attributes] reports it. *)
Inductive node :=
| Text (data : str)
| Element (tag : string) (attrs : list (string * option str))
          (children : list node).

(** [node.attributes]: the attributes collected into a [dict]. *)
Definition attributes (n : node) : list (string * option str) :=
  match n with
  | Text _ => []
  | Element _ attrs _ =>
      fold_left (fun d kv => dict_set String.eqb d (fst kv) (snd kv)) attrs []
  end.

(** [node.text()]: the text nodes below the node, concatenated. *)
Fixpoint text (n : node) : str :=
  match n with
  | Text data => data
  | Element _ _ children => flat_map text children
  end.

(** The selectors of the scraper: ["li"], ["a[href]"], ["td, th"], ... *)
Inductive selector :=
| Tag (t : string)
| TagAttr (t a : string)
| Either (s1 s2 : selector).
Arguments Element tag%_string attrs children.
Arguments Tag t%_string.
Arguments TagAttr (t a)%_string.

Definition has_attr (a : string) (attrs : list (string * option str)) : bool :=
  existsb (fun kv => String.eqb (fst kv) a) attrs.

Fixpoint matches (s : selector) (n : node) : bool :=
  match s, n with
  | _, Text _ => false
  | Tag t, Element tag _ _ => String.eqb tag t
  | TagAttr t a, Element tag attrs _ => String.eqb tag t && has_attr a attrs
  | Either s1 s2, _ => matches s1 n || matches s2 n
  end.

(** The elements of a subtree in document order, each with its chain of
    ancestors, parent first: [node.parent] read off the tree.  The subtree's
    root comes first: a CSS query on a node can select the node itself.
    The chains end at the root element; the parser's document node above
    it has the same elements below it and adds nothing to a query. *)
Fixpoint located (ancestors : list node) (n : node) : list (list node * node) :=
  match n with
  | Text _ => []
  | Element _ _ children =>
      (ancestors, n) :: flat_map (located (n :: ancestors)) children
  end.

(** The alternatives of a selector group. *)
Fixpoint alternatives (s : selector) : list selector :=
  match s with
  | Either s1 s2 => alternatives s1 ++ alternatives s2
  | _ => [s]
  end.

Section Queries.

Variable R : runtime.

(** The elements a query selects, with their ancestors: those of the
    subtree that match, in document order; for a selector group, in
    document order or alternative by alternative, as the parser has it. *)
Definition css_located (s : selector) (root : node) : list (list node * node) :=
  if groups_in_document_order R
  then filter (fun an => matches s (snd an)) (located [] root)
  else flat_map (fun alt =>
                   filter (fun an => matches alt (snd an)) (located [] root))
                (alternatives s).

(** [node.css(selector)]. *)
Definition css (s : selector) (n : node) : list node :=
  map snd (css_located s n).

(** [node.css_first(selector)]. *)
Definition css_first (s : selector) (n : node) : option node :=
  hd_error (css s n).

End Queries.

(* ================================================================= *)
(** ** The scraper *)

Inductive exn :=
| AttributeError          (** ['NoneType' object has no attribute 'strip'] *)
| FetchError (why : str)  (** whatever [httpx] raised *).

(** [str(e)]. *)
Definition exn_str (e : exn) : str :=
  match e with
  | AttributeError => lit "'NoneType' object has no attribute 'strip'"
  | FetchError why => why
  end.

Inductive res (A : Type) :=
| Raise (e : exn)
| Return (a : A).
Arguments Raise {A} e.
Arguments Return {A} a.

(** What a run does to the outside: the request sent and the lines
    printed. *)
Inductive event :=
| Requested (url : str)
| Printed (line : str).

(** What a run reads from the outside: the answer to a GET, as the tree
    [HTMLParser] builds from [resp.text] (or the exception of the request or
    of [raise_for_status]), and [datetime.utcnow().isoformat()]. *)
Record world := {
  http_get : str -> res node;
  utcnow_isoformat : str
}.

(** A method runs against a world and yields its events and its result or
    exception. *)
Definition IO (A : Type) : Type := world -> list event * res A.

Definition ret {A} (a : A) : IO A := fun _ => ([], Return a).

Definition bind {A B} (m : IO A) (k : A -> IO B) : IO B :=
  fun w =>
    match m w with
    | (ev, Raise e) => (ev, Raise e)
    | (ev, Return a) => let (ev', r) := k a w in (ev ++ ev', r)
    end.

Definition lift {A} (r : res A) : IO A := fun _ => ([], r).

Notation "x <- m ;; k" := (bind m (fun x => k))
  (at level 61, m at next level, right associativity).

(** [self.url] is all a scraper's methods read of it besides the constants
    [timeout] and [headers] of the request. *)
Record SarkariScraper := { url : str }.

(** [fetch]: one GET, one printed line, then the page or the exception. *)
Definition fetch (self : SarkariScraper) : IO node :=
  fun w =>
    match http_get w (url self) with
    | Return tree =>
        ([Requested (url self); Printed (lit "[+] Fetched " ++ url self)],
         Return tree)
    | Raise e =>
        ([Requested (url self);
          Printed (lit "[!] Error fetching " ++ url self ++ lit ": "
                   ++ exn_str e)],
         Raise e)
    end.

Definition utcnow : IO str := fun w => ([], Return (utcnow_isoformat w)).

(** An entry of [items]. *)
Record Item := {
  rank : Z;
  title : str;
  link : str;
  metadata_type : option string;
  metadata_value : option str;
  status_text : option string
}.

(** The dictionary [scrape_aggregator_list] returns. *)
Record Listing := {
  listing_url : str;
  listing_fetched_at : str;
  listing_title : option str;
  items_count : Z;
  items : list Item
}.

(** An entry of [links]: [{"text": text, "url": url}]. *)
Record Anchor := { anchor_text : str; anchor_url : str }.

(** The dictionary [scrape_recruitment_detail] returns. *)
Record Detail := {
  detail_url : str;
  detail_fetched_at : str;
  detail_title : option str;
  tables : list (str * list (list str));
  links_count : Z;
  important_links : list Anchor
}.

(** [a.attributes.get("href", "").strip()]: the default stands in for a
    missing key only; a key bound to [None] yields [None], which has no
    [strip]. *)
Definition href (a : node) : res str :=
  match dict_get String.eqb (attributes a) "href"%string with
  | None => Return (strip [])
  | Some None => Raise AttributeError
  | Some (Some v) => Return (strip v)
  end.

Section Scraper.

Variable R : runtime.

(** [tree.css_first("h1")] and [title.text().strip() if title else None]. *)
Definition title_text (tree : node) : option str :=
  option_map (fun h => strip (text h)) (css_first R (Tag "h1") tree).

Definition marker : str := lit "Last Date:".
Definition out_marker : str := en_dash :: lit " Out".
Definition pending_marker : str := en_dash :: lit " Pending".

(** "Parse metadata": [(metadata_type, metadata_value, status_text)]. *)
Definition parse_metadata (full_text link_text : str)
  : option string * option str * option string :=
  if contains marker full_text then
    match search_last_date R full_text with
    | Some date => (Some "last_date"%string, Some date, Some "Active"%string)
    | None => (Some "last_date"%string, None, None)
    end
  else if contains out_marker link_text then
    (Some "status"%string, Some (lit "out"), Some "Out"%string)
  else if contains pending_marker link_text then
    (Some "status"%string, Some (lit "pending"), Some "Pending"%string)
  else (None, None, None).

(** The loop over [tree.css("li")], with [items] and [rank] as they stand
    when the loop reaches [lis]. *)
Fixpoint aggregator_items (lis : list node) (items : list Item) (rank : Z)
  : res (list Item) :=
  match lis with
  | [] => Return items
  | li :: rest =>
      match css_first R (TagAttr "a" "href") li with
      | None => aggregator_items rest items rank
      | Some a =>
          let link_text := strip (text a) in
          match href a with
          | Raise e => Raise e
          | Return link_url =>
              let full_text := strip (text li) in
              if negb (truthy link_text) || negb (truthy link_url)
              then aggregator_items rest items rank
              else
                let '(mtype, mvalue, status) :=
                  parse_metadata full_text link_text in
                aggregator_items rest
                  (items ++ [{| rank := rank; title := link_text;
                                link := link_url; metadata_type := mtype;
                                metadata_value := mvalue;
                                status_text := status |}])
                  (rank + 1)
          end
      end
  end.

Definition scrape_aggregator_list (self : SarkariScraper) : IO Listing :=
  tree <- fetch self ;;
  items <- lift (aggregator_items (css R (Tag "li") tree) [] 1) ;;
  now <- utcnow ;;
  ret {| listing_url := url self;
         listing_fetched_at := now ++ lit "Z";
         listing_title := title_text tree;
         items_count := Z.of_nat (length items);
         items := items |}.

(** "Find preceding heading": from [table.parent] upwards, the first
    ancestor with an [h2], [h3] or [h4] in its subtree gives the heading. *)
Definition heading_sel : selector :=
  Either (Tag "h2") (Either (Tag "h3") (Tag "h4")).

Fixpoint find_heading (ancestors : list node) : option str :=
  match ancestors with
  | [] => None
  | prev :: up =>
      match css_first R heading_sel prev with
      | Some h => Some (strip (text h))
      | None => find_heading up
      end
  end.

(** "Extract table rows": the cells of each [tr], rows without cells
    left out. *)
Definition row_cells (tr : node) : list str :=
  map (fun td => strip (text td)) (css R (Either (Tag "td") (Tag "th")) tr).

Definition table_rows (table : node) : list (list str) :=
  filter truthy (map row_cells (css R (Tag "tr") table)).

(** One turn of the loop over [tree.css("table")]. *)
Definition add_table (tables : list (str * list (list str)))
    (table : list node * node) : list (str * list (list str)) :=
  let rows := table_rows (snd table) in
  match find_heading (fst table) with
  | Some heading =>
      if truthy rows && truthy heading
      then dict_set str_eqb tables heading rows
      else tables
  | None => tables
  end.

Definition detail_tables (tree : node) : list (str * list (list str)) :=
  fold_left add_table (css_located R (Tag "table") tree) [].

(** The loop over [tree.css("a[href]")]. *)
Fixpoint detail_links (anchors : list node) (links : list Anchor)
  : res (list Anchor) :=
  match anchors with
  | [] => Return links
  | a :: rest =>
      let text := strip (text a) in
      match href a with
      | Raise e => Raise e
      | Return url =>
          if truthy text && truthy url && (3 <? length text)%nat
          then detail_links rest (links ++ [{| anchor_text := text;
                                               anchor_url := url |}])
          else detail_links rest links
      end
  end.

Definition keywords : list str :=
  [lit "apply"; lit "official"; lit "notification"; lit "admit"; lit "result"].

Definition has_keyword (l : Anchor) : bool :=
  existsb (fun k => contains k (lower R (anchor_text l))) keywords.

Definition scrape_recruitment_detail (self : SarkariScraper) : IO Detail :=
  tree <- fetch self ;;
  links <- lift (detail_links (css R (TagAttr "a" "href") tree) []) ;;
  now <- utcnow ;;
  ret {| detail_url := url self;
         detail_fetched_at := now ++ lit "Z";
         detail_title := title_text tree;
         tables := detail_tables tree;
         links_count := Z.of_nat (length links);
         important_links := filter has_keyword links |}.

End Scraper.

(* ----------------------------------------------------------------- *)
(** *** The script *)


Notation "m ;;; k" := (bind m (fun _ => k))
  (at level 61, right associativity).







Section Script.

Variable R : runtime.

(** [repr] of a [str], as Python writes it inside the text of a [dict]:
    the runtime's, and a parameter here. *)
Variable repr : str -> str.



End Script.



(* ================================================================= *)
(** ** Vocabulary of the properties *)

(** The status category of an item, as the listing's consumers read
    [status_text]: one of the three texts, or none. *)
Inductive category := Active | Out | Pending | Unknown.

Definition status_category (it : Item) : category :=
  match status_text it with
  | Some s =>
      if String.eqb s "Active" then Active
      else if String.eqb s "Out" then Out
      else if String.eqb s "Pending" then Pending
      else Unknown
  | None => Unknown
  end.

Section Vocabulary.

Variable R : runtime.

(** The first [a[href]] of a list entry, its trimmed text and its trimmed
    [href] (empty when there is none to trim). *)
Definition first_link (li : node) : option node :=
  css_first R (TagAttr "a" "href") li.

Definition href_or_empty (a : node) : str :=
  match href a with
  | Return u => u
  | Raise _ => []
  end.

Definition li_link_text (li : node) : str :=
  match first_link li with
  | Some a => strip (text a)
  | None => []
  end.

Definition li_link_url (li : node) : str :=
  match first_link li with
  | Some a => href_or_empty a
  | None => []
  end.

Definition li_full_text (li : node) : str := strip (text li).

(** A list entry is accepted when its first link has text and an address. *)
Definition accepted (li : node) : bool :=
  truthy (li_link_text li) && truthy (li_link_url li).

(** The [href] of the link can be trimmed: it is missing or has a value. *)
Definition href_valued (a : node) : bool :=
  match href a with
  | Return _ => true
  | Raise _ => false
  end.

Definition li_href_valued (li : node) : bool :=
  match first_link li with
  | Some a => href_valued a
  | None => true
  end.

(** The pages on which each extractor runs to its end. *)
Definition listing_hrefs_valued (tree : node) : bool :=
  forallb li_href_valued (css R (Tag "li") tree).

Definition detail_hrefs_valued (tree : node) : bool :=
  forallb href_valued (css R (TagAttr "a" "href") tree).

(** The link an anchor stands for, and the test the detail extractor
    applies before it keeps one. *)
Definition anchor_of (a : node) : Anchor :=
  {| anchor_text := strip (text a); anchor_url := href_or_empty a |}.

Definition collected (l : Anchor) : bool :=
  truthy (anchor_text l) && truthy (anchor_url l)
  && (3 <? length (anchor_text l))%nat.

(** A table of the page with the heading and the rows the extractor
    computes for it; [None] for a table it leaves out. *)
Definition table_entry (table : list node * node)
  : option (str * list (list str)) :=
  match find_heading R (fst table) with
  | Some heading =>
      if truthy (table_rows R (snd table)) && truthy heading
      then Some (heading, table_rows R (snd table))
      else None
  | None => None
  end.

(** [c] is a child of [p]; [chain n ups root]: [ups] lists the ancestors
    of [n], parent first, up to [root]. *)
Definition child_of (p c : node) : Prop :=
  match p with
  | Element _ _ children => In c children
  | Text _ => False
  end.

Fixpoint chain (n : node) (ups : list node) (root : node) : Prop :=
  match ups with
  | [] => n = root
  | p :: ups' => child_of p n /\ chain p ups' root
  end.

(** The nearest heading before a node: the last [h2], [h3] or [h4] among
    the elements that precede it in document order. *)
Definition nearest_preceding_heading (before : list node) : option str :=
  option_map (fun h => strip (text h))
             (hd_error (rev (filter (matches heading_sel) before))).

(** The rows bound to [h] once the tables [ts] have been gone through in
    order: those of the last table entered under [h]. *)
Fixpoint last_rows (h : str) (ts : list (list node * node))
  : option (list (list str)) :=
  match ts with
  | [] => None
  | t :: rest =>
      match last_rows h rest with
      | Some rows => Some rows
      | None =>
          match table_entry t with
          | Some (h', rows) => if str_eqb h h' then Some rows else None
          | None => None
          end
      end
  end.

(** A link is important when its lowercased text holds a keyword and the
    text is longer than three characters. *)
Definition is_important (l : Anchor) : bool :=
  has_keyword R l && (3 <? length (anchor_text l))%nat.

(** The item the listing extractor builds for an accepted entry. *)
Definition item_of (li : node) (rank : Z) : Item :=
  let '(mtype, mvalue, status) :=
    parse_metadata R (li_full_text li) (li_link_text li) in
  {| rank := rank; title := li_link_text li; link := li_link_url li;
     metadata_type := mtype; metadata_value := mvalue;
     status_text := status |}.

Fixpoint ranked (rank : Z) (lis : list node) : list Item :=
  match lis with
  | [] => []
  | li :: rest => item_of li rank :: ranked (rank + 1) rest
  end.

(** A date token: digits, blanks, word characters, blanks, four digits. *)
Definition date_token (d : str) : Prop :=
  exists day ws1 month ws2 year,
    d = day ++ ws1 ++ month ++ ws2 ++ year
    /\ forallb (isdigit R) day = true /\ (1 <= length day)%nat
    /\ forallb isspace ws1 = true /\ (1 <= length ws1)%nat
    /\ forallb (isword R) month = true /\ (1 <= length month)%nat
    /\ forallb isspace ws2 = true /\ (1 <= length ws2)%nat
    /\ forallb (isdigit R) year = true /\ length year = 4%nat.

(** [d] stands in [s] right after the marker, blanks apart. *)
Definition follows_marker (s d : str) : Prop :=
  exists pre ws post,
    s = pre ++ marker ++ ws ++ d ++ post /\ forallb isspace ws = true.

End Vocabulary.

(** The records with the time stamp blanked: what two runs are compared
    on. *)
Definition listing_unstamped (r : Listing) : Listing :=
  {| listing_url := listing_url r; listing_fetched_at := [];
     listing_title := listing_title r; items_count := items_count r;
     items := items r |}.

Definition detail_unstamped (r : Detail) : Detail :=
  {| detail_url := detail_url r; detail_fetched_at := [];
     detail_title := detail_title r; tables := tables r;
     links_count := links_count r; important_links := important_links r |}.

Definition res_map {A B} (f : A -> B) (r : res A) : res B :=
  match r with
  | Raise e => Raise e
  | Return a => Return (f a)
  end.

(* ----------------------------------------------------------------- *)
(** *** Further vocabulary *)

(** The elements of a subtree, in document order. *)
Definition elements (n : node) : list node := map snd (located [] n).

(** A text is trimmed when it neither starts nor ends with whitespace. *)
Definition clean_start (s : str) : bool :=
  match s with
  | [] => true
  | c :: _ => negb (isspace c)
  end.

Definition trimmed (s : str) : bool := clean_start s && clean_start (rev s).



(** The three fields "Parse metadata" sets, as one of the five
    combinations the branches can leave. *)
Definition metadata_consistent (it : Item) : Prop :=
  (metadata_type it = None /\ metadata_value it = None
   /\ status_text it = None)
  \/ (metadata_type it = Some "last_date"%string
      /\ metadata_value it = None /\ status_text it = None)
  \/ (metadata_type it = Some "last_date"%string
      /\ (exists d, metadata_value it = Some d)
      /\ status_text it = Some "Active"%string)
  \/ (metadata_type it = Some "status"%string
      /\ metadata_value it = Some (lit "out")
      /\ status_text it = Some "Out"%string)
  \/ (metadata_type it = Some "status"%string
      /\ metadata_value it = Some (lit "pending")
      /\ status_text it = Some "Pending"%string).



(* ================================================================= *)
(** ** Example pages *)

Definition el (tag : string) (children : list node) : node :=
  Element tag [] children.
Arguments el tag%_string children.

(** [<a href=...>text</a>]; [None] for a bare [<a href>]. *)
Definition a_link (target : option str) (label : str) : node :=
  Element "a" [("href"%string, target)] [Text label].

(** The skeleton the parser builds around the content of a page. *)
Definition page (body : list node) : node :=
  el "html" [el "head" []; el "body" body].

(** [<li><a href="/x">Job A – Out</a></li>] *)
Definition li_out : node :=
  el "li" [a_link (Some (lit "/x")) (lit "Job A " ++ out_marker)].

(** [<li><a href="/y">Job B</a> Last Date: 15 June 2026</li>] *)
Definition li_dated : node :=
  el "li" [a_link (Some (lit "/y")) (lit "Job B");
           Text (lit " Last Date: 15 June 2026")].

(** [<li><a href="/z">Job C</a> Last Date: to be announced</li>] *)
Definition li_undated : node :=
  el "li" [a_link (Some (lit "/z")) (lit "Job C");
           Text (lit " Last Date: to be announced")].

(** [<li><a href>Job D</a></li>] *)
Definition li_bare_href : node := el "li" [a_link None (lit "Job D")].

Definition listing_page : node :=
  page [el "h1" [Text (lit "Latest Jobs")];
        el "ul" [li_out; el "li" [Text (lit "no link here")]; li_dated;
                 li_undated]].

Definition undated_page : node := page [el "ul" [li_undated]].

Definition bare_href_page : node := page [el "ul" [li_bare_href]].

Definition empty_page : node := page [].

Definition row (cells : list str) : node :=
  el "tr" (map (fun c => el "td" [Text c]) cells).

Definition dates_table : node :=
  el "table" [row [lit "Start"; lit "2026-01-01"]].

Definition fee_table : node :=
  el "table" [row [lit "General"; lit "100"]].

(** [<h2>Important Dates</h2><table>..</table>], the page of the
    scenario. *)
Definition dates_page : node :=
  page [el "h2" [Text (lit "Important Dates")]; dates_table].

(** Two sections side by side, each a heading followed by its table. *)
Definition two_sections_page : node :=
  page [el "h2" [Text (lit "Important Dates")]; dates_table;
        el "h3" [Text (lit "Application Fee")]; fee_table].

(** A table under a heading without text. *)
Definition blank_heading_page : node :=
  page [el "div" [el "h2" []; dates_table]].

(** [<a href=" ">Apply Online</a>]: a link whose address is blank. *)
Definition blank_href_page : node :=
  page [a_link (Some (lit " ")) (lit "Apply Online")].

Definition links_page : node :=
  page [a_link (Some (lit "/apply")) (lit "Apply Online");
        a_link (Some (lit "/")) (lit "Home page");
        a_link (Some (lit "/ok")) (lit "OK")].

(** [<tr><th>Post</th><td>Clerk</td></tr>] *)
Definition mixed_row : node :=
  el "tr" [el "th" [Text (lit "Post")]; el "td" [Text (lit "Clerk")]].

Definition jobs : SarkariScraper :=
  {| url := lit "https://sarkariresult.com.cm/latest-jobs/" |}.

(** A world in which every request is answered with [tree]. *)
Definition answering (tree : node) (now : str) : world :=
  {| http_get := fun _ => Return tree; utcnow_isoformat := now |}.

Definition morning : str := lit "2026-01-01T08:00:00".
Definition evening : str := lit "2026-01-01T20:00:00".

(* ================================================================= *)
(** ** Properties *)

(* ----------------------------------------------------------------- *)
(** *** Running a method *)

Lemma fetch_events (self : SarkariScraper) (w : world) :
  exists line, fst (fetch self w) = [Requested (url self); Printed line].
Proof.
  unfold fetch. destruct (http_get w (url self)); eexists; reflexivity.
Qed.

Lemma fetch_result (self : SarkariScraper) (w : world) :
  snd (fetch self w) = http_get w (url self).
Proof.
  unfold fetch. destruct (http_get w (url self)); reflexivity.
Qed.

(** [tree <- fetch self ;; r <- lift (f tree) ;; now <- utcnow ;; ret (g ..)]:
    the shape of both methods. *)
Lemma run_method {A B} (self : SarkariScraper) (f : node -> res A)
    (g : node -> A -> str -> B) (w : world) :
  (tree <- fetch self ;; a <- lift (f tree) ;; now <- utcnow ;;
   ret (g tree a now)) w
  = (fst (fetch self w),
     match http_get w (url self) with
     | Raise e => Raise e
     | Return tree =>
         res_map (fun a => g tree a (utcnow_isoformat w)) (f tree)
     end).
Proof.
  unfold bind, fetch, lift, utcnow, ret.
  destruct (http_get w (url self)) as [e | tree]; [reflexivity |].
  destruct (f tree) as [e | a]; cbn; reflexivity.
Qed.

Lemma href_raises (a : node) (e : exn) :
  href a = Raise e -> e = AttributeError.
Proof.
  unfold href.
  destruct (dict_get String.eqb (attributes a) "href"%string) as [[v |] |];
    intros H; inversion H; reflexivity.
Qed.

Section ListingProperties.

Variable R : runtime.

(* ----------------------------------------------------------------- *)
(** *** The loop over the list entries *)

Lemma aggregator_items_closed_form (lis : list node) :
  forall items rank,
    aggregator_items R lis items rank
    = if forallb (li_href_valued R) lis
      then Return (items ++ ranked R rank (filter (accepted R) lis))
      else Raise AttributeError.
Proof.
  induction lis as [| li rest IH]; intros items rank; cbn [aggregator_items].
  - cbn. rewrite app_nil_r. reflexivity.
  - cbn [forallb filter].
    unfold li_href_valued at 1, accepted at 1, li_link_text, li_link_url,
      href_valued, href_or_empty, first_link.
    destruct (css_first R (TagAttr "a" "href") li) as [a |] eqn:Ea.
    + destruct (href a) as [e | u] eqn:Eh.
      * rewrite (href_raises _ _ Eh). reflexivity.
      * cbn [andb].
        destruct (truthy (strip (text a))), (truthy u); cbn [negb orb andb];
          try (rewrite IH; reflexivity).
        cbn [ranked].
        unfold item_of, li_link_text, li_link_url, li_full_text, first_link,
          href_or_empty.
        rewrite Ea, Eh.
        destruct (parse_metadata R (strip (text li)) (strip (text a)))
          as [[mt mv] st].
        rewrite IH.
        destruct (forallb (li_href_valued R) rest); [| reflexivity].
        rewrite <- app_assoc. reflexivity.
    + cbn [truthy andb]. apply IH.
Qed.



Lemma ranked_Forall2 (P : node -> Item -> Prop) (lis : list node) :
  (forall li rank, In li lis -> P li (item_of R li rank)) ->
  forall rank, Forall2 P lis (ranked R rank lis).
Proof.
  induction lis as [| li rest IH]; intros H rank; cbn; constructor.
  - apply H. left. reflexivity.
  - apply IH. intros li' r Hin. apply H. right. exact Hin.
Qed.


Lemma item_of_title_link (li : node) (r : Z) :
  title (item_of R li r) = li_link_text R li
  /\ link (item_of R li r) = li_link_url R li.
Proof.
  unfold item_of.
  destruct (parse_metadata R (li_full_text li) (li_link_text R li))
    as [[mt mv] st].
  split; reflexivity.
Qed.

(** What a run of the listing extractor returns on a page whose links can
    all be read. *)
Lemma scrape_aggregator_list_returns (self : SarkariScraper) (w : world)
    (tree : node) :
  http_get w (url self) = Return tree ->
  listing_hrefs_valued R tree = true ->
  snd (scrape_aggregator_list R self w)
  = Return
      (let items := ranked R 1 (filter (accepted R) (css R (Tag "li") tree)) in
       {| listing_url := url self;
          listing_fetched_at := utcnow_isoformat w ++ lit "Z";
          listing_title := title_text R tree;
          items_count := Z.of_nat (length items);
          items := items |}).
Proof.
  intros Hget Hok. unfold scrape_aggregator_list.
  rewrite (run_method self
             (fun tree => aggregator_items R (css R (Tag "li") tree) [] 1)
             (fun tree items now =>
                {| listing_url := url self;
                   listing_fetched_at := now ++ lit "Z";
                   listing_title := title_text R tree;
                   items_count := Z.of_nat (length items);
                   items := items |})).
  cbn [snd]. rewrite Hget, aggregator_items_closed_form.
  unfold listing_hrefs_valued in Hok. rewrite Hok. reflexivity.
Qed.

End ListingProperties.

(* ----------------------------------------------------------------- *)
(** *** What the regular expression captures *)

Lemma firstn_plus {A} (n m : nat) (l : list A) :
  firstn (n + m) l = firstn n l ++ firstn m (skipn n l).
Proof.
  revert l. induction n as [| n IH]; intros l; [reflexivity |].
  destruct l as [| x l]; cbn.
  - rewrite firstn_nil. reflexivity.
  - rewrite IH. reflexivity.
Qed.

Lemma starts_with_split (l s : str) :
  starts_with l s = true -> s = l ++ skipn (length l) s.
Proof.
  revert s. induction l as [| a l IH]; intros s H; [reflexivity |].
  destruct s as [| b s]; [discriminate |]. cbn in H.
  apply andb_true_iff in H. destruct H as [Hab Hl].
  apply N.eqb_eq in Hab. subst b. cbn. f_equal. apply IH, Hl.
Qed.

Lemma span_firstn (cls : N -> bool) (s : str) (n : nat) :
  (n <= span cls s)%nat ->
  forallb cls (firstn n s) = true /\ length (firstn n s) = n.
Proof.
  revert s. induction n as [| n IH]; intros s H; [split; reflexivity |].
  destruct s as [| c s]; cbn in H; [lia |].
  destruct (cls c) eqn:Ec; [| lia].
  destruct (IH s) as [Hall Hlen]; [lia |].
  cbn. rewrite Ec, Hall, Hlen. split; reflexivity.
Qed.

Lemma give_back_some (k : nat -> option (list nat)) (lo n : nat)
    (r : list nat) :
  give_back k lo n = Some r ->
  exists m rest, r = m :: rest /\ (lo <= m <= n)%nat /\ k m = Some rest.
Proof.
  induction n as [| n IH]; cbn [give_back]; intros H.
  - destruct (0 <? lo)%nat eqn:El; [discriminate |].
    apply Nat.ltb_ge in El.
    destruct (k 0%nat) as [rest |] eqn:Ek; [| discriminate].
    inversion H; subst. exists 0%nat, rest. repeat split; auto.
  - destruct (S n <? lo)%nat eqn:El; [discriminate |].
    apply Nat.ltb_ge in El.
    destruct (k (S n)) as [rest |] eqn:Ek.
    + inversion H; subst. exists (S n), rest. repeat split; auto.
    + destruct (IH H) as (m & rest & -> & Hm & Hk).
      exists m, rest. repeat split; auto; lia.
Qed.

Lemma re_search_some (p : list atom) (s from : str) (ls : list nat) :
  re_search p s = Some (from, ls) ->
  exists pre, s = pre ++ from /\ match_here p from = Some ls.
Proof.
  induction s as [| c s IH]; cbn [re_search].
  - destruct (match_here p []) as [l |] eqn:E; [| discriminate].
    intros H; inversion H; subst. exists []. split; [reflexivity | exact E].
  - destruct (match_here p (c :: s)) as [l |] eqn:E.
    + intros H; inversion H; subst. exists [].
      split; [reflexivity | exact E].
    + intros H. destruct (IH H) as (pre & -> & Hm).
      exists (c :: pre). split; [reflexivity | exact Hm].
Qed.

Section Captured.

Variable R : runtime.

(** A match of the pattern reads the marker, blanks, and a date token. *)
Lemma last_date_match (s : str) (ls : list nat) :
  match_here (last_date_re R) s = Some ls ->
  exists n0 n1 n2 n3 n4 n5,
    ls = [length marker; n0; n1; n2; n3; n4; n5]
    /\ starts_with marker s = true
    /\ (n0 <= span isspace (skipn (length marker) s))%nat
    /\ (1 <= n1 <= span (isdigit R) (skipn n0 (skipn (length marker) s)))%nat
    /\ (1 <= n2 <= span isspace
                     (skipn n1 (skipn n0 (skipn (length marker) s))))%nat
    /\ (1 <= n3 <= span (isword R)
                     (skipn n2 (skipn n1 (skipn n0
                        (skipn (length marker) s)))))%nat
    /\ (1 <= n4 <= span isspace
                     (skipn n3 (skipn n2 (skipn n1 (skipn n0
                        (skipn (length marker) s))))))%nat
    /\ n5 = 4%nat
    /\ (4 <= span (isdigit R)
              (skipn n4 (skipn n3 (skipn n2 (skipn n1 (skipn n0
                 (skipn (length marker) s)))))))%nat.
Proof.
  unfold last_date_re, last_date_prefix, last_date_group.
  cbn [app match_here]. fold marker.
  destruct (starts_with marker s) eqn:Em; [| discriminate].
  set (s0 := skipn (length marker) s).
  intros H.
  destruct (give_back _ _ _) as [r0 |] eqn:E0 in H; [| discriminate].
  cbn in H. inversion H; subst ls; clear H.
  apply give_back_some in E0. destruct E0 as (n0 & r1 & -> & H0 & E1).
  apply give_back_some in E1. destruct E1 as (n1 & r2 & -> & H1 & E2).
  apply give_back_some in E2. destruct E2 as (n2 & r3 & -> & H2 & E3).
  apply give_back_some in E3. destruct E3 as (n3 & r4 & -> & H3 & E4).
  apply give_back_some in E4. destruct E4 as (n4 & r5 & -> & H4 & E5).
  destruct (4 <=? span (isdigit R) _)%nat eqn:E6 in E5; [| discriminate].
  cbn in E5. inversion E5; subst r5; clear E5.
  apply Nat.leb_le in E6.
  exists n0, n1, n2, n3, n4, 4%nat.
  repeat split; auto; lia.
Qed.

Lemma search_last_date_some (s d : str) :
  search_last_date R s = Some d -> date_token R d /\ follows_marker s d.
Proof.
  unfold search_last_date.
  destruct (re_search (last_date_re R) s) as [[from ls] |] eqn:Es;
    [| discriminate].
  intros H. inversion H; subst d; clear H.
  apply re_search_some in Es. destruct Es as (pre & -> & Hm).
  apply last_date_match in Hm.
  destruct Hm as (n0 & n1 & n2 & n3 & n4 & n5 & -> & Hmk & H0 & H1 & H2 & H3
                  & H4 & -> & H5).
  set (s0 := skipn (length marker) from) in *.
  set (s1 := skipn n0 s0) in *. set (s2 := skipn n1 s1) in *.
  set (s3 := skipn n2 s2) in *. set (s4 := skipn n3 s3) in *.
  set (s5 := skipn n4 s4) in *.
  destruct (span_firstn isspace s0 n0 H0) as [A0 L0].
  destruct (span_firstn (isdigit R) s1 n1 (proj2 H1)) as [A1 L1].
  destruct (span_firstn isspace s2 n2 (proj2 H2)) as [A2 L2].
  destruct (span_firstn (isword R) s3 n3 (proj2 H3)) as [A3 L3].
  destruct (span_firstn isspace s4 n4 (proj2 H4)) as [A4 L4].
  destruct (span_firstn (isdigit R) s5 4 H5) as [A5 L5].
  assert (Hd : firstn (list_sum [n1; n2; n3; n4; 4%nat])
                 (skipn (list_sum [length marker; n0]) from)
               = firstn n1 s1 ++ firstn n2 s2 ++ firstn n3 s3
                 ++ firstn n4 s4 ++ firstn 4 s5).
  { change (list_sum [n1; n2; n3; n4; 4%nat])
      with (n1 + (n2 + (n3 + (n4 + (4 + 0)))))%nat.
    change (list_sum [length marker; n0])
      with (length marker + (n0 + 0))%nat.
    rewrite !Nat.add_0_r.
    replace (skipn (length marker + n0) from) with s1
      by (unfold s1, s0; rewrite skipn_skipn; f_equal; lia).
    rewrite !firstn_plus. reflexivity. }
  rewrite Hd. split.
  - exists (firstn n1 s1), (firstn n2 s2), (firstn n3 s3), (firstn n4 s4),
      (firstn 4 s5).
    rewrite L1, L2, L3, L4, L5. repeat split; auto; lia.
  - exists pre, (firstn n0 s0), (skipn 4 s5). split; [| exact A0].
    f_equal. rewrite (starts_with_split _ _ Hmk) at 1. f_equal. fold s0.
    rewrite <- (firstn_skipn n0 s0) at 1. f_equal. fold s1.
    rewrite <- (firstn_skipn n1 s1) at 1. rewrite <- !app_assoc. f_equal.
    fold s2.
    rewrite <- (firstn_skipn n2 s2) at 1. f_equal. fold s3.
    rewrite <- (firstn_skipn n3 s3) at 1. f_equal. fold s4.
    rewrite <- (firstn_skipn n4 s4) at 1. f_equal. fold s5.
    symmetry. apply firstn_skipn.
Qed.

End Captured.

(* ----------------------------------------------------------------- *)
(** *** What the regular expression finds *)

Lemma give_back_none (k : nat -> option (list nat)) (lo n : nat) :
  give_back k lo n = None ->
  forall m, (lo <= m <= n)%nat -> k m = None.
Proof.
  induction n as [| n IH]; cbn [give_back]; intros H m Hm.
  - destruct (0 <? lo)%nat eqn:El.
    + apply Nat.ltb_lt in El. lia.
    + destruct (k 0%nat) eqn:Ek; [discriminate |].
      replace m with 0%nat by lia. exact Ek.
  - destruct (S n <? lo)%nat eqn:El.
    + apply Nat.ltb_lt in El. lia.
    + destruct (k (S n)) eqn:Ek; [discriminate |].
      destruct (Nat.eq_dec m (S n)) as [-> | Hne]; [exact Ek |].
      apply IH; [exact H | lia].
Qed.

Lemma span_app (cls : N -> bool) (piece rest : str) :
  forallb cls piece = true -> (length piece <= span cls (piece ++ rest))%nat.
Proof.
  induction piece as [| c piece IH]; cbn; intros H; [lia |].
  apply andb_true_iff in H. destruct H as [Hc Hp]. rewrite Hc.
  specialize (IH Hp). lia.
Qed.

Lemma skipn_app_exact {A} (piece rest : list A) :
  skipn (length piece) (piece ++ rest) = rest.
Proof. induction piece as [| c piece IH]; cbn; auto. Qed.

Lemma starts_with_app (l rest : str) : starts_with l (l ++ rest) = true.
Proof.
  induction l as [| c l IH]; [reflexivity |].
  cbn. rewrite N.eqb_refl. exact IH.
Qed.

Lemma match_lit_complete (l : str) (p : list atom) (rest : str) :
  match_here p rest <> None -> match_here (Lit l :: p) (l ++ rest) <> None.
Proof.
  intros H. cbn [match_here]. rewrite starts_with_app, skipn_app_exact.
  destruct (match_here p rest); [discriminate | contradiction].
Qed.

Lemma match_many_complete (cls : N -> bool) (lo : nat) (p : list atom)
    (piece rest : str) :
  forallb cls piece = true -> (lo <= length piece)%nat ->
  match_here p rest <> None ->
  match_here (Many cls lo :: p) (piece ++ rest) <> None.
Proof.
  intros Hall Hlo H. cbn [match_here]. intros Hnone.
  pose proof (give_back_none _ _ _ Hnone (length piece)) as Hk.
  cbv beta in Hk. rewrite skipn_app_exact in Hk.
  apply H, Hk. split; [exact Hlo | apply span_app, Hall].
Qed.

Lemma match_exactly_complete (cls : N -> bool) (p : list atom)
    (piece rest : str) :
  forallb cls piece = true ->
  match_here p rest <> None ->
  match_here (Exactly cls (length piece) :: p) (piece ++ rest) <> None.
Proof.
  intros Hall H. cbn [match_here].
  pose proof (span_app cls piece rest Hall) as Hs.
  apply Nat.leb_le in Hs. rewrite Hs, skipn_app_exact.
  destruct (match_here p rest); [discriminate | contradiction].
Qed.

Lemma re_search_complete (p : list atom) (pre from : str) :
  match_here p from <> None -> re_search p (pre ++ from) <> None.
Proof.
  intros H. induction pre as [| c pre IH].
  - destruct from; cbn [app re_search];
      destruct (match_here p _); try discriminate; contradiction.
  - cbn [app re_search].
    destruct (match_here p (c :: pre ++ from)); [discriminate | exact IH].
Qed.

Lemma search_last_date_complete (R : runtime) (s d : str) :
  date_token R d -> follows_marker s d ->
  exists d', search_last_date R s = Some d'.
Proof.
  intros (day & ws1 & month & ws2 & year & -> & Hd & Ld & H1 & L1 & Hm & Lm
          & H2 & L2 & Hy & Ly)
         (pre & ws & post & -> & Hws).
  unfold search_last_date.
  destruct (re_search (last_date_re R) _) as [[from ls] |] eqn:E;
    [eexists; reflexivity |].
  exfalso. revert E. apply re_search_complete.
  unfold last_date_re, last_date_prefix, last_date_group. cbn [app].
  fold marker. apply match_lit_complete.
  apply match_many_complete; [exact Hws | lia |].
  rewrite <- !app_assoc.
  apply match_many_complete; [exact Hd | exact Ld |].
  apply match_many_complete; [exact H1 | exact L1 |].
  apply match_many_complete; [exact Hm | exact Lm |].
  apply match_many_complete; [exact H2 | exact L2 |].
  rewrite <- Ly. apply match_exactly_complete; [exact Hy |].
  cbn. discriminate.
Qed.

(* ----------------------------------------------------------------- *)
(** *** Dictionaries *)

Lemma str_eqb_eq (a b : str) : str_eqb a b = true <-> a = b.
Proof.
  revert b. induction a as [| x a IH]; intros [| y b]; cbn;
    try (split; [discriminate | intros H; inversion H]); [tauto |].
  rewrite andb_true_iff, N.eqb_eq, IH.
  split; [intros [-> ->]; reflexivity | intros H; inversion H; auto].
Qed.

Lemma str_eqb_refl (a : str) : str_eqb a a = true.
Proof. apply str_eqb_eq. reflexivity. Qed.

Section DictFacts.

Context {K V : Type} (key_eqb : K -> K -> bool).
Hypothesis key_eqb_eq : forall a b, key_eqb a b = true <-> a = b.

Lemma key_eqb_trans_false (a b c : K) :
  key_eqb a b = true -> key_eqb c b = key_eqb c a.
Proof.
  intros H. apply key_eqb_eq in H. subst b. reflexivity.
Qed.

Lemma dict_get_set (d : list (K * V)) (k k' : K) (v : V) :
  dict_get key_eqb (dict_set key_eqb d k v) k'
  = if key_eqb k' k then Some v else dict_get key_eqb d k'.
Proof.
  induction d as [| [k0 v0] d IH]; cbn; [reflexivity |].
  destruct (key_eqb k k0) eqn:E; cbn.
  - rewrite (key_eqb_trans_false k k0 k' E).
    destruct (key_eqb k' k); reflexivity.
  - rewrite IH. destruct (key_eqb k' k0) eqn:E0; [| reflexivity].
    destruct (key_eqb k' k) eqn:E1; [| reflexivity].
    apply key_eqb_eq in E0, E1. subst.
    assert (Hk : key_eqb k0 k0 = true) by (apply key_eqb_eq; reflexivity).
    congruence.
Qed.

Lemma dict_set_keys (d : list (K * V)) (k : K) (v : V) :
  map fst (dict_set key_eqb d k v)
  = if existsb (key_eqb k) (map fst d) then map fst d else map fst d ++ [k].
Proof.
  induction d as [| [k0 v0] d IH]; cbn; [reflexivity |].
  destruct (key_eqb k k0) eqn:E; cbn; [reflexivity |].
  rewrite IH. destruct (existsb (key_eqb k) (map fst d)); reflexivity.
Qed.

Lemma dict_set_NoDup (d : list (K * V)) (k : K) (v : V) :
  NoDup (map fst d) -> NoDup (map fst (dict_set key_eqb d k v)).
Proof.
  intros Hd. rewrite dict_set_keys.
  destruct (existsb (key_eqb k) (map fst d)) eqn:E; [exact Hd |].
  apply NoDup_app; [exact Hd | repeat constructor; intros [] |].
  intros x Hx [Heq | []]. subst x.
  assert (existsb (key_eqb k) (map fst d) = true); [| congruence].
  apply existsb_exists. exists k. split; [exact Hx |].
  apply key_eqb_eq. reflexivity.
Qed.

Lemma dict_get_key (d : list (K * V)) (k : K) :
  In k (map fst d) <-> exists v, dict_get key_eqb d k = Some v.
Proof.
  induction d as [| [k0 v0] d IH]; cbn.
  - split; [intros [] | intros [v H]; discriminate].
  - destruct (key_eqb k k0) eqn:E.
    + apply key_eqb_eq in E. subst. split; eauto.
    + rewrite <- IH. split; [intros [-> | H]; auto | auto].
      assert (key_eqb k k = true) by (apply key_eqb_eq; reflexivity).
      congruence.
Qed.

End DictFacts.

(* ----------------------------------------------------------------- *)
(** *** The loop over the tables *)

Lemma table_entry_some (R : runtime) (t : list node * node) (h : str)
    (rows : list (list str)) :
  table_entry R t = Some (h, rows)
  <-> find_heading R (fst t) = Some h /\ h <> []
      /\ table_rows R (snd t) = rows /\ rows <> [].
Proof.
  unfold table_entry.
  destruct (find_heading R (fst t)) as [h' |].
  - destruct (table_rows R (snd t)) as [| row rs] eqn:Er; cbn.
    + split; [discriminate | intros (_ & _ & <- & H); contradiction].
    + destruct h' as [| c h']; cbn.
      * split; [discriminate |].
        intros (H & Hne & _). inversion H; subst. contradiction.
      * split.
        -- intros H; inversion H; subst.
           repeat split; discriminate.
        -- intros (H & _ & <- & _). inversion H; subst. reflexivity.
  - split; [discriminate | intros (H & _); discriminate].
Qed.

Lemma add_table_entry (R : runtime) (d : list (str * list (list str)))
    (t : list node * node) :
  add_table R d t
  = match table_entry R t with
    | Some (h, rows) => dict_set str_eqb d h rows
    | None => d
    end.
Proof.
  unfold add_table, table_entry.
  destruct (find_heading R (fst t)) as [h |]; [| reflexivity].
  destruct (truthy (table_rows R (snd t)) && truthy h); reflexivity.
Qed.

Lemma tables_lookup (R : runtime) (ts : list (list node * node)) :
  forall d h,
    dict_get str_eqb (fold_left (add_table R) ts d) h
    = match last_rows R h ts with
      | Some rows => Some rows
      | None => dict_get str_eqb d h
      end.
Proof.
  induction ts as [| t rest IH]; intros d h; cbn [fold_left last_rows];
    [reflexivity |].
  rewrite IH. destruct (last_rows R h rest); [reflexivity |].
  rewrite add_table_entry.
  destruct (table_entry R t) as [[h' rows] |]; [| reflexivity].
  rewrite (dict_get_set str_eqb str_eqb_eq).
  destruct (str_eqb h h'); reflexivity.
Qed.

Lemma tables_NoDup (R : runtime) (ts : list (list node * node)) :
  forall d, NoDup (map fst d) -> NoDup (map fst (fold_left (add_table R) ts d)).
Proof.
  induction ts as [| t rest IH]; intros d Hd; cbn [fold_left]; [exact Hd |].
  apply IH. rewrite add_table_entry.
  destruct (table_entry R t) as [[h rows] |]; [| exact Hd].
  apply (dict_set_NoDup str_eqb str_eqb_eq), Hd.
Qed.

Lemma last_rows_none (R : runtime) (h : str) (ts : list (list node * node)) :
  last_rows R h ts = None
  <-> forall t rows, In t ts -> table_entry R t <> Some (h, rows).
Proof.
  induction ts as [| t rest IH]; cbn [last_rows].
  - split; [intros _ t rows [] | reflexivity].
  - destruct (last_rows R h rest) as [r |].
    + split; [discriminate |]. intros H. exfalso.
      assert (Hr : Some r = None); [| discriminate].
      apply IH. intros t' rows Hin. apply H. right. exact Hin.
    + destruct (table_entry R t) as [[h' rows'] |] eqn:Et.
      * destruct (str_eqb h h') eqn:Eh.
        -- split; [discriminate |]. intros H. exfalso.
           apply str_eqb_eq in Eh. subst h'.
           apply (H t rows'); [left; reflexivity | exact Et].
        -- split; [| reflexivity]. intros _ t' rows [<- | Hin].
           ++ rewrite Et. intros H; inversion H; subst.
              rewrite str_eqb_refl in Eh. discriminate.
           ++ apply (proj1 IH); [reflexivity | exact Hin].
      * split; [| reflexivity]. intros _ t' rows [<- | Hin].
        -- rewrite Et. discriminate.
        -- apply (proj1 IH); [reflexivity | exact Hin].
Qed.

(** [last_rows] is the entry of the last table entered under the
    heading. *)
Lemma last_rows_some (R : runtime) (h : str) (ts : list (list node * node))
    (rows : list (list str)) :
  last_rows R h ts = Some rows
  <-> exists before t after,
        ts = before ++ t :: after
        /\ table_entry R t = Some (h, rows)
        /\ forall t' rows', In t' after -> table_entry R t' <> Some (h, rows').
Proof.
  induction ts as [| t rest IH]; cbn [last_rows].
  - split; [discriminate |].
    intros (before & t & after & H & _). destruct before; discriminate.
  - destruct (last_rows R h rest) as [r |] eqn:Er.
    + split.
      * intros H. inversion H; subst r.
        destruct (proj1 IH eq_refl) as (before & t0 & after & -> & Ht & Ha).
        exists (t :: before), t0, after. repeat split; auto.
      * intros (before & t0 & after & H & Ht & Ha).
        destruct before as [| b before]; cbn in H; inversion H; subst.
        -- exfalso.
           assert (Hn : last_rows R h after = None)
             by (apply last_rows_none; exact Ha).
           congruence.
        -- apply IH. exists before, t0, after. repeat split; auto.
    + pose proof (proj1 (last_rows_none R h rest) Er) as Hrest.
      split.
      * destruct (table_entry R t) as [[h' rows'] |] eqn:Et; [| discriminate].
        destruct (str_eqb h h') eqn:Eh; [| discriminate].
        intros H. inversion H; subst. apply str_eqb_eq in Eh. subst h'.
        exists [], t, rest. repeat split; auto.
      * intros (before & t0 & after & H & Ht & Ha).
        destruct before as [| b before]; cbn in H; inversion H; subst.
        -- rewrite Ht, str_eqb_refl. reflexivity.
        -- exfalso. apply (Hrest t0 rows); [| exact Ht].
           apply in_or_app. right. left. reflexivity.
Qed.

(* ----------------------------------------------------------------- *)
(** *** The loop over the links *)

Lemma detail_links_closed_form (anchors : list node) :
  forall links,
    detail_links anchors links
    = if forallb href_valued anchors
      then Return (links ++ filter collected (map anchor_of anchors))
      else Raise AttributeError.
Proof.
  induction anchors as [| a rest IH]; intros links;
    cbn [detail_links forallb map filter].
  - rewrite app_nil_r. reflexivity.
  - unfold href_valued at 1.
    destruct (href a) as [e | u] eqn:Eh.
    + rewrite (href_raises _ _ Eh). reflexivity.
    + assert (Ha : anchor_of a
                   = {| anchor_text := strip (text a); anchor_url := u |})
        by (unfold anchor_of, href_or_empty; rewrite Eh; reflexivity).
      rewrite Ha. unfold collected at 1. cbn [anchor_text anchor_url andb].
      rewrite !IH.
      destruct (truthy (strip (text a)) && truthy u
                && (3 <? length (strip (text a)))%nat);
        destruct (forallb href_valued rest); try reflexivity.
      rewrite <- app_assoc. reflexivity.
Qed.

Lemma scrape_recruitment_detail_returns (R : runtime)
    (self : SarkariScraper) (w : world) (tree : node) :
  http_get w (url self) = Return tree ->
  detail_hrefs_valued R tree = true ->
  snd (scrape_recruitment_detail R self w)
  = Return
      (let links :=
         filter collected (map anchor_of (css R (TagAttr "a" "href") tree)) in
       {| detail_url := url self;
          detail_fetched_at := utcnow_isoformat w ++ lit "Z";
          detail_title := title_text R tree;
          tables := detail_tables R tree;
          links_count := Z.of_nat (length links);
          important_links := filter (has_keyword R) links |}).
Proof.
  intros Hget Hok. unfold scrape_recruitment_detail.
  rewrite (run_method self
             (fun tree => detail_links (css R (TagAttr "a" "href") tree) [])
             (fun tree links now =>
                {| detail_url := url self;
                   detail_fetched_at := now ++ lit "Z";
                   detail_title := title_text R tree;
                   tables := detail_tables R tree;
                   links_count := Z.of_nat (length links);
                   important_links := filter (has_keyword R) links |})).
  cbn [snd]. rewrite Hget, detail_links_closed_form.
  unfold detail_hrefs_valued in Hok. rewrite Hok. reflexivity.
Qed.

(* ----------------------------------------------------------------- *)
(** *** Ancestors and headings *)

Lemma node_induction (P : node -> Prop) :
  (forall data, P (Text data)) ->
  (forall tag attrs children,
      Forall P children -> P (Element tag attrs children)) ->
  forall n, P n.
Proof.
  intros HT HE. fix IH 1. intros [data | tag attrs children].
  - apply HT.
  - apply HE. induction children as [| c cs IHcs]; constructor.
    + apply IH.
    + exact IHcs.
Qed.

(** The chains [located] hands out are the nodes' ancestors. *)
Lemma located_chain (root : node) (n : node) :
  forall ups anc t,
    chain n ups root -> In (anc, t) (located ups n) -> chain t anc root.
Proof.
  induction n as [data | tag attrs children IH] using node_induction;
    intros ups anc t Hn Hin; cbn [located] in Hin.
  - destruct Hin.
  - destruct Hin as [Heq | Hin].
    + inversion Heq; subst. exact Hn.
    + apply in_flat_map in Hin. destruct Hin as (c & Hc & Hin).
      rewrite Forall_forall in IH.
      apply (IH c Hc (Element tag attrs children :: ups)); [| exact Hin].
      split; [exact Hc | exact Hn].
Qed.

Lemma matches_text (s : selector) (data : str) :
  matches s (Text data) = false.
Proof. destruct s; reflexivity. Qed.

(** An alternative of a group matches exactly when the group does. *)
Lemma alternatives_match (s : selector) (n : node) :
  existsb (fun alt => matches alt n) (alternatives s) = matches s n.
Proof.
  induction s as [t | t a | s1 IH1 s2 IH2]; cbn [alternatives existsb];
    try apply orb_false_r.
  rewrite existsb_app, IH1, IH2.
  destruct n; [rewrite !matches_text |]; reflexivity.
Qed.

(** Whatever the order, a query selects the elements of the subtree that
    match. *)
Lemma css_located_In (R : runtime) (s : selector) (root : node)
    (an : list node * node) :
  In an (css_located R s root)
  <-> In an (located [] root) /\ matches s (snd an) = true.
Proof.
  unfold css_located. destruct (groups_in_document_order R).
  - apply filter_In.
  - rewrite in_flat_map, <- alternatives_match, existsb_exists. split.
    + intros (alt & Halt & Hin). apply filter_In in Hin.
      destruct Hin as [Hin Hm]. split; [exact Hin |].
      exists alt. split; assumption.
    + intros (Hin & alt & Halt & Hm). exists alt. split; [exact Halt |].
      apply filter_In. split; assumption.
Qed.

(** A query with one alternative reports its matches in document order. *)
Lemma css_located_simple (R : runtime) (s : selector) (root : node) :
  alternatives s = [s] ->
  css_located R s root
  = filter (fun an => matches s (snd an)) (located [] root).
Proof.
  intros H. unfold css_located.
  destruct (groups_in_document_order R); [reflexivity |].
  rewrite H. cbn. apply app_nil_r.
Qed.

Lemma css_simple (R : runtime) (s : selector) (n : node) :
  alternatives s = [s] ->
  css R s n = filter (matches s) (map snd (located [] n)).
Proof.
  intros H. unfold css. rewrite (css_located_simple R s n H).
  induction (located [] n) as [| [anc x] l IH]; cbn; [reflexivity |].
  destruct (matches s x); cbn; rewrite IH; reflexivity.
Qed.

Lemma css_located_chain (R : runtime) (s : selector) (root : node)
    (anc : list node) (t : node) :
  In (anc, t) (css_located R s root) ->
  chain t anc root /\ matches s t = true.
Proof.
  intros H. apply css_located_In in H. destruct H as [Hin Hm].
  split; [| exact Hm].
  apply (located_chain root root [] anc t); [reflexivity | exact Hin].
Qed.

Lemma css_first_In (R : runtime) (s : selector) (n h : node) :
  css_first R s n = Some h ->
  In h (map snd (located [] n)) /\ matches s h = true.
Proof.
  unfold css_first, css. intros H.
  assert (Hin : In h (map snd (css_located R s n))).
  { destruct (map snd (css_located R s n)) as [| x l]; [discriminate |].
    inversion H; subst. left. reflexivity. }
  apply in_map_iff in Hin. destruct Hin as ([anc h'] & Heq & Hin).
  cbn in Heq. subst h'. apply css_located_In in Hin.
  destruct Hin as [Hin Hm]. split; [| exact Hm].
  apply in_map_iff. exists (anc, h). split; [reflexivity | exact Hin].
Qed.

Lemma css_first_none (R : runtime) (s : selector) (n : node) :
  css_first R s n = None <-> css R s n = [].
Proof.
  unfold css_first. destruct (css R s n); cbn; split; congruence.
Qed.

Lemma find_heading_none (R : runtime) (ancestors : list node) :
  find_heading R ancestors = None
  <-> forall a, In a ancestors -> css R heading_sel a = [].
Proof.
  induction ancestors as [| prev up IH]; cbn [find_heading].
  - split; [intros _ a [] | reflexivity].
  - destruct (css_first R heading_sel prev) as [h |] eqn:E.
    + split; [discriminate |]. intros H. exfalso.
      assert (Hn : css_first R heading_sel prev = None)
        by (apply css_first_none, H; left; reflexivity).
      congruence.
    + rewrite IH. apply css_first_none in E.
      split; [intros H a [<- | Ha]; auto | intros H a Ha; apply H; right; auto].
Qed.

Lemma find_heading_some (R : runtime) (ancestors : list node) (s : str) :
  find_heading R ancestors = Some s
  <-> exists near a far h,
        ancestors = near ++ a :: far
        /\ (forall x, In x near -> css R heading_sel x = [])
        /\ css_first R heading_sel a = Some h
        /\ s = strip (text h).
Proof.
  induction ancestors as [| prev up IH]; cbn [find_heading].
  - split; [discriminate |].
    intros (near & a & far & h & H & _). destruct near; discriminate.
  - destruct (css_first R heading_sel prev) as [h |] eqn:E.
    + split.
      * intros H. inversion H; subst s. exists [], prev, up, h.
        repeat split; auto. intros x [].
      * intros (near & a & far & h' & H & Hnear & Ha & ->).
        destruct near as [| x near]; cbn in H; inversion H; subst.
        -- congruence.
        -- exfalso.
           assert (Hn : css_first R heading_sel x = None)
             by (apply css_first_none, Hnear; left; reflexivity).
           congruence.
    + rewrite IH. split.
      * intros (near & a & far & h & -> & Hnear & Ha & ->).
        exists (prev :: near), a, far, h. repeat split; auto.
        intros x [<- | Hx]; [apply css_first_none, E | apply Hnear, Hx].
      * intros (near & a & far & h & H & Hnear & Ha & ->).
        destruct near as [| x near]; cbn in H; inversion H; subst.
        -- congruence.
        -- exists near, a, far, h. repeat split; auto.
           intros y Hy. apply Hnear. right. exact Hy.
Qed.

(* ================================================================= *)
(** ** The listing extractor *)



Example listing_page_items :
  res_map (fun r => map (fun it => (rank it, title it, status_category it))
                        (items r))
          (snd (scrape_aggregator_list plain jobs
                  (answering listing_page morning)))
  = Return [(1%Z, lit "Job A " ++ out_marker, Out);
            (2%Z, lit "Job B", Active);
            (3%Z, lit "Job C", Unknown)].
Proof. vm_compute. reflexivity. Qed.

(** The pattern at work: blanks after the marker are optional, the day
    may have any number of digits, the year is the first four digits, and
    the leftmost occurrence of the marker that is followed by a date
    decides. *)
Example search_last_date_examples :
  search_last_date plain (lit "Job B Last Date: 15 June 2026")
  = Some (lit "15 June 2026")
  /\ search_last_date plain (lit "Last Date:7  July 20261")
     = Some (lit "7  July 2026")
  /\ search_last_date plain (lit "Last Date: 123 06 2026")
     = Some (lit "123 06 2026")
  /\ search_last_date plain (lit "Last Date: soon. Last Date: 1 May 2027")
     = Some (lit "1 May 2027")
  /\ search_last_date plain (lit "Last Date: 15-06-2026") = None
  /\ search_last_date plain (lit "Last date: 15 June 2026") = None.
Proof. vm_compute. repeat split; reflexivity. Qed.

(** The status texts are read back as their categories. *)
Lemma item_of_marked (R : runtime) (li : node) (r : Z) :
  contains marker (li_full_text li) = true ->
  metadata_type (item_of R li r) = Some "last_date"%string
  /\ metadata_value (item_of R li r) = search_last_date R (li_full_text li)
  /\ status_category (item_of R li r)
     = match search_last_date R (li_full_text li) with
       | Some _ => Active
       | None => Unknown
       end.
Proof.
  intros Hm. unfold item_of, parse_metadata. rewrite Hm.
  destruct (search_last_date R (li_full_text li)); repeat split; reflexivity.
Qed.

Lemma item_of_unmarked (R : runtime) (li : node) (r : Z) :
  contains marker (li_full_text li) = false ->
  if contains out_marker (li_link_text R li)
  then status_category (item_of R li r) = Out
  else if contains pending_marker (li_link_text R li)
       then status_category (item_of R li r) = Pending
       else status_category (item_of R li r) = Unknown
            /\ metadata_value (item_of R li r) = None.
Proof.
  intros Hm. unfold item_of, parse_metadata. rewrite Hm.
  destruct (contains out_marker (li_link_text R li)); [reflexivity |].
  destruct (contains pending_marker (li_link_text R li)); [reflexivity |].
  split; reflexivity.
Qed.

(** C1 (as the code has it): on every page the listing extractor runs
    through, an accepted entry whose full trimmed text contains
    ["Last Date:"] gets the metadata type [last_date]; it has a date detail
    as soon as a date token (one or more digits, blanks, word characters,
    blanks, four digits) follows the marker, blanks apart; a detail it has
    is such a token standing after the marker, and the category is then
    Active; without a detail the category is Unknown. *)
Theorem last_date_entries (R : runtime) (self : SarkariScraper)
    (w : world) (tree : node) :
  http_get w (url self) = Return tree ->
  listing_hrefs_valued R tree = true ->
  exists r,
    snd (scrape_aggregator_list R self w) = Return r
    /\ Forall2
         (fun li it =>
            contains marker (li_full_text li) = true ->
            metadata_type it = Some "last_date"%string
            /\ ((exists d, date_token R d
                           /\ follows_marker (li_full_text li) d) ->
                exists d', metadata_value it = Some d')
            /\ (forall d, metadata_value it = Some d ->
                          status_category it = Active
                          /\ date_token R d
                          /\ follows_marker (li_full_text li) d)
            /\ (metadata_value it = None -> status_category it = Unknown))
         (filter (accepted R) (css R (Tag "li") tree)) (items r).
Proof.
  intros Hget Hok. eexists. split.
  - apply (scrape_aggregator_list_returns R self w tree Hget Hok).
  - cbn [items]. apply ranked_Forall2. intros li r _ Hm.
    destruct (item_of_marked R li r Hm) as (Ht & Hv & Hc).
    rewrite Hv, Hc. split; [exact Ht |]. split; [| split].
    + intros (d & Hd & Hf).
      apply (search_last_date_complete R _ d Hd Hf).
    + intros d Hs. rewrite Hs. split; [reflexivity |].
      apply search_last_date_some, Hs.
    + intros Hs. rewrite Hs. reflexivity.
Qed.

Lemma last_date_entries_witness :
  http_get (answering listing_page morning) (url jobs) = Return listing_page
  /\ listing_hrefs_valued plain listing_page = true
  /\ exists r,
       snd (scrape_aggregator_list plain jobs
              (answering listing_page morning)) = Return r
       /\ Forall2
            (fun li it =>
               contains marker (li_full_text li) = true ->
               metadata_type it = Some "last_date"%string
               /\ ((exists d, date_token plain d
                              /\ follows_marker (li_full_text li) d) ->
                   exists d', metadata_value it = Some d')
               /\ (forall d, metadata_value it = Some d ->
                             status_category it = Active
                             /\ date_token plain d
                             /\ follows_marker (li_full_text li) d)
               /\ (metadata_value it = None ->
                   status_category it = Unknown))
            (filter (accepted plain) (css plain (Tag "li") listing_page))
            (items r).
Proof.
  split; [reflexivity |]. split; [reflexivity |].
  apply (last_date_entries plain jobs (answering listing_page morning)
           listing_page); reflexivity.
Defined.

(** C1, as stated, fails on [<li><a href="/z">Job C</a> Last Date: to be
    announced</li>]: the entry is accepted and its text has the marker, yet
    its status text is absent, so that its category is Unknown. *)
Lemma last_date_without_token_is_unknown :
  accepted plain li_undated = true
  /\ contains marker (li_full_text li_undated) = true
  /\ res_map items
       (snd (scrape_aggregator_list plain jobs
               (answering undated_page morning)))
     = Return [{| rank := 1; title := lit "Job C"; link := lit "/z";
                  metadata_type := Some "last_date"%string;
                  metadata_value := None; status_text := None |}]
  /\ res_map (fun r => map status_category (items r))
       (snd (scrape_aggregator_list plain jobs
               (answering undated_page morning)))
     = Return [Unknown].
Proof. vm_compute. repeat split; reflexivity. Qed.

(** C3: on every page the listing extractor runs through, the branches
    are tried in a fixed order and the first that applies decides: an
    accepted entry whose full text contains ["Last Date:"] is of type
    [last_date] whatever its link text; one whose full text lacks it is Out
    when its link text contains ["– Out"], else Pending when it contains
    ["– Pending"], else Unknown with no detail.  And a page whose only list
    entry is [<li><a href="/x">Job A – Out</a></li>] yields exactly one
    item, of rank 1, with that title, the link ["/x"] and the category
    Out. *)
Theorem status_entries (R : runtime) (self : SarkariScraper)
    (w : world) (tree : node) :
  http_get w (url self) = Return tree ->
  listing_hrefs_valued R tree = true ->
  exists r,
    snd (scrape_aggregator_list R self w) = Return r
    /\ Forall2
         (fun li it =>
            if contains marker (li_full_text li)
            then metadata_type it = Some "last_date"%string
            else if contains out_marker (li_link_text R li)
                 then status_category it = Out
                 else if contains pending_marker (li_link_text R li)
                      then status_category it = Pending
                      else status_category it = Unknown
                           /\ metadata_value it = None)
         (filter (accepted R) (css R (Tag "li") tree)) (items r)
    /\ (css R (Tag "li") tree = [li_out] ->
        exists it,
          items r = [it] /\ rank it = 1%Z
          /\ title it = lit "Job A " ++ out_marker
          /\ link it = lit "/x" /\ status_category it = Out).
Proof.
  intros Hget Hok. eexists. split.
  - apply (scrape_aggregator_list_returns R self w tree Hget Hok).
  - cbn [items]. split.
    + apply ranked_Forall2. intros li r _.
      destruct (contains marker (li_full_text li)) eqn:Hm.
      * apply (item_of_marked R li r Hm).
      * apply (item_of_unmarked R li r Hm).
    + intros ->. destruct R as [dh ah lh [|]]; eexists;
        (split; [reflexivity |]); repeat split; reflexivity.
Qed.

Lemma status_entries_witness :
  http_get (answering (page [li_out]) morning) (url jobs)
  = Return (page [li_out])
  /\ listing_hrefs_valued plain (page [li_out]) = true
  /\ exists r,
       snd (scrape_aggregator_list plain jobs
              (answering (page [li_out]) morning)) = Return r
       /\ Forall2
            (fun li it =>
               if contains marker (li_full_text li)
               then metadata_type it = Some "last_date"%string
               else if contains out_marker (li_link_text plain li)
                    then status_category it = Out
                    else if contains pending_marker (li_link_text plain li)
                         then status_category it = Pending
                         else status_category it = Unknown
                              /\ metadata_value it = None)
            (filter (accepted plain) (css plain (Tag "li") (page [li_out])))
            (items r)
       /\ (css plain (Tag "li") (page [li_out]) = [li_out] ->
           exists it,
             items r = [it] /\ rank it = 1%Z
             /\ title it = lit "Job A " ++ out_marker
             /\ link it = lit "/x" /\ status_category it = Out).
Proof.
  split; [reflexivity |]. split; [reflexivity |].
  apply (status_entries plain jobs (answering (page [li_out]) morning)
           (page [li_out])); reflexivity.
Defined.

(* ================================================================= *)
(** ** The detail extractor *)

Lemma table_rows_rows (R : runtime) (tb : node) :
  Forall (fun cells =>
            cells <> []
            /\ exists tr, In tr (css R (Tag "tr") tb) /\ cells = row_cells R tr)
         (table_rows R tb).
Proof.
  unfold table_rows. apply Forall_forall. intros cells Hin.
  apply filter_In in Hin. destruct Hin as [Hin Hne].
  apply in_map_iff in Hin. destruct Hin as (tr & <- & Htr).
  split; [| exists tr; split; [exact Htr | reflexivity]].
  intros E. rewrite E in Hne. discriminate.
Qed.

Lemma detail_tables_lookup (R : runtime) (tree : node) (h : str)
    (rows : list (list str)) :
  dict_get str_eqb (detail_tables R tree) h = Some rows
  <-> exists before t after,
        css_located R (Tag "table") tree = before ++ t :: after
        /\ table_entry R t = Some (h, rows)
        /\ forall t' rows', In t' after -> table_entry R t' <> Some (h, rows').
Proof.
  unfold detail_tables. rewrite tables_lookup, <- last_rows_some.
  cbn [dict_get]. destruct (last_rows R h _); split; congruence.
Qed.

(** Where the order of a selector group's matches shows: a row that
    mixes [th] and [td]. *)
Example mixed_row_cells :
  row_cells in_order mixed_row = [lit "Post"; lit "Clerk"]
  /\ row_cells plain mixed_row = [lit "Clerk"; lit "Post"].
Proof. vm_compute. split; reflexivity. Qed.

(** C4 (as the code has it): on every page the detail extractor runs
    through, a table with a heading that is resolved and not empty and with
    at least one row has its heading among the keys of [tables]; and
    whatever [tables] binds to a heading is the non-empty list of rows of a
    table of the page resolved to that non-empty heading, each row being
    the non-empty list of trimmed texts of the [td]/[th] elements selected
    under one [tr].  So a table without rows, without a heading or with an
    empty heading enters nothing. *)
Theorem tables_hold_headed_tables (R : runtime) (self : SarkariScraper)
    (w : world) (tree : node) :
  http_get w (url self) = Return tree ->
  detail_hrefs_valued R tree = true ->
  exists r,
    snd (scrape_recruitment_detail R self w) = Return r
    /\ (forall anc tb h,
          In (anc, tb) (css_located R (Tag "table") tree) ->
          find_heading R anc = Some h -> h <> [] -> table_rows R tb <> [] ->
          In h (map fst (tables r)))
    /\ (forall h rows,
          dict_get str_eqb (tables r) h = Some rows ->
          h <> [] /\ rows <> []
          /\ (exists anc tb,
                In (anc, tb) (css_located R (Tag "table") tree)
                /\ find_heading R anc = Some h /\ table_rows R tb = rows)
          /\ Forall (fun cells => cells <> []) rows)
    /\ (forall h, In h (map fst (tables r))
                  <-> exists rows, dict_get str_eqb (tables r) h = Some rows).
Proof.
  intros Hget Hok. eexists. split.
  - apply (scrape_recruitment_detail_returns R self w tree Hget Hok).
  - cbn [tables]. split; [| split].
    + intros anc tb h Hin Hh Hne Hrows.
      apply (dict_get_key str_eqb str_eqb_eq).
      unfold detail_tables. rewrite tables_lookup. cbn [dict_get].
      destruct (last_rows R h (css_located R (Tag "table") tree))
        as [rows |] eqn:E; [exists rows; reflexivity |].
      exfalso.
      apply (proj1 (last_rows_none R h _) E (anc, tb) (table_rows R tb) Hin).
      apply table_entry_some. repeat split; auto.
    + intros h rows Hget'.
      apply detail_tables_lookup in Hget'.
      destruct Hget' as (before & [anc tb] & after & Hts & Ht & _).
      apply table_entry_some in Ht. cbn [fst snd] in Ht.
      destruct Ht as (Hh & Hne & Hrows & Hrne).
      split; [exact Hne |]. split; [exact Hrne |]. split.
      * exists anc, tb. split; [| split; assumption].
        rewrite Hts. apply in_or_app. right. left. reflexivity.
      * subst rows. eapply Forall_impl; [| apply table_rows_rows].
        intros cells [Hc _]. exact Hc.
    + intros h. apply (dict_get_key str_eqb str_eqb_eq).
Qed.

Lemma tables_hold_headed_tables_witness :
  http_get (answering dates_page morning) (url jobs) = Return dates_page
  /\ detail_hrefs_valued plain dates_page = true
  /\ exists r,
       snd (scrape_recruitment_detail plain jobs
              (answering dates_page morning)) = Return r
       /\ (forall anc tb h,
             In (anc, tb) (css_located plain (Tag "table") dates_page) ->
             find_heading plain anc = Some h -> h <> [] ->
             table_rows plain tb <> [] ->
             In h (map fst (tables r)))
       /\ (forall h rows,
             dict_get str_eqb (tables r) h = Some rows ->
             h <> [] /\ rows <> []
             /\ (exists anc tb,
                   In (anc, tb) (css_located plain (Tag "table") dates_page)
                   /\ find_heading plain anc = Some h
                   /\ table_rows plain tb = rows)
             /\ Forall (fun cells => cells <> []) rows)
       /\ (forall h, In h (map fst (tables r))
                     <-> exists rows,
                           dict_get str_eqb (tables r) h = Some rows).
Proof.
  split; [reflexivity |]. split; [reflexivity |].
  apply (tables_hold_headed_tables plain jobs
           (answering dates_page morning) dates_page); reflexivity.
Defined.

(** The scenario of the specification:
    [<h2>Important Dates</h2><table><tr><td>Start</td><td>2026-01-01</td>
    </tr></table>]. *)
Example dates_page_tables :
  res_map tables
    (snd (scrape_recruitment_detail plain jobs
            (answering dates_page morning)))
  = Return [(lit "Important Dates", [[lit "Start"; lit "2026-01-01"]])].
Proof. vm_compute. reflexivity. Qed.

(** C4, as stated, fails on [<div><h2></h2><table>..</table></div>]: the
    table has a resolved heading (the empty text of the [h2]) and one row,
    and [tables] stays empty. *)
Lemma table_under_blank_heading_is_left_out :
  css_located plain (Tag "table") blank_heading_page
  = [([el "div" [el "h2" []; dates_table];
       el "body" [el "div" [el "h2" []; dates_table]];
       blank_heading_page],
      dates_table)]
  /\ find_heading plain [el "div" [el "h2" []; dates_table];
                   el "body" [el "div" [el "h2" []; dates_table]];
                   blank_heading_page] = Some []
  /\ table_rows plain dates_table = [[lit "Start"; lit "2026-01-01"]]
  /\ res_map tables
       (snd (scrape_recruitment_detail plain jobs
               (answering blank_heading_page morning)))
     = Return [].
Proof. vm_compute. repeat split; reflexivity. Qed.

(** C5 (as the code has it): for every table of the page, the chain the
    extractor walks is the chain of the table's ancestors, parent first, up
    to the root; the heading is the trimmed text of the first element the
    query ["h2, h3, h4"] selects in the subtree of the nearest ancestor
    whose subtree has an [h2], [h3] or [h4]; and it is absent exactly when
    no ancestor's subtree has one. *)
Theorem heading_of_nearest_ancestor (R : runtime) (tree : node)
    (anc : list node) (tb : node) :
  In (anc, tb) (css_located R (Tag "table") tree) ->
  chain tb anc tree
  /\ (forall s,
        find_heading R anc = Some s
        <-> exists near a far h,
              anc = near ++ a :: far
              /\ (forall x, In x near -> css R heading_sel x = [])
              /\ css_first R heading_sel a = Some h
              /\ s = strip (text h))
  /\ (find_heading R anc = None
      <-> forall a, In a anc -> css R heading_sel a = [])
  /\ (forall a h,
        css_first R heading_sel a = Some h ->
        In h (map snd (located [] a)) /\ matches heading_sel h = true).
Proof.
  intros Hin. split; [| split; [| split]].
  - apply (css_located_chain R (Tag "table") tree anc tb Hin).
  - intros s. apply find_heading_some.
  - apply find_heading_none.
  - apply css_first_In.
Qed.

Lemma heading_of_nearest_ancestor_witness :
  In ([el "body" [el "h2" [Text (lit "Important Dates")]; dates_table];
       dates_page],
      dates_table)
     (css_located plain (Tag "table") dates_page)
  /\ find_heading plain
       [el "body" [el "h2" [Text (lit "Important Dates")]; dates_table];
        dates_page]
     = Some (lit "Important Dates")
  /\ exists near a far h,
       [el "body" [el "h2" [Text (lit "Important Dates")]; dates_table];
        dates_page]
       = near ++ a :: far
       /\ (forall x, In x near -> css plain heading_sel x = [])
       /\ css_first plain heading_sel a = Some h
       /\ lit "Important Dates" = strip (text h).
Proof.
  assert (Hin : In ([el "body" [el "h2" [Text (lit "Important Dates")];
                                dates_table];
                     dates_page],
                    dates_table)
                   (css_located plain (Tag "table") dates_page))
    by (left; reflexivity).
  split; [exact Hin |]. split; [reflexivity |].
  apply (proj1 (proj1 (proj2 (heading_of_nearest_ancestor
                                plain dates_page _ _ Hin))
                      (lit "Important Dates"))).
  reflexivity.
Defined.

(** C5, as stated, fails on a page with two sections side by side,
    [<h2>Important Dates</h2><table>..</table><h3>Application Fee</h3>
    <table>..</table>]: the heading found for the second table is
    ["Important Dates"], and the nearest heading before it is
    ["Application Fee"]. *)
Lemma heading_found_is_not_the_nearest_preceding :
  exists before anc after,
    located [] two_sections_page = before ++ (anc, fee_table) :: after
    /\ matches (Tag "table") fee_table = true
    /\ find_heading plain anc = Some (lit "Important Dates")
    /\ nearest_preceding_heading (map snd before)
       = Some (lit "Application Fee")
    /\ res_map tables
         (snd (scrape_recruitment_detail plain jobs
                 (answering two_sections_page morning)))
       = Return [(lit "Important Dates", [[lit "General"; lit "100"]])].
Proof.
  exists (firstn 9 (located [] two_sections_page)),
         [el "body" [el "h2" [Text (lit "Important Dates")]; dates_table;
                     el "h3" [Text (lit "Application Fee")]; fee_table];
          two_sections_page],
         (skipn 10 (located [] two_sections_page)).
  vm_compute. repeat split; reflexivity.
Qed.

(** The pages of the two counterexamples above read the same in either
    order of a selector group's matches. *)
Example counterexample_pages_in_order :
  detail_tables in_order blank_heading_page = []
  /\ detail_tables in_order two_sections_page
     = [(lit "Important Dates", [[lit "General"; lit "100"]])].
Proof. vm_compute. split; reflexivity. Qed.

(** C6: on every page the detail extractor runs through, the keys of
    [tables] are pairwise distinct, and a heading is bound to the rows of
    the last table, in document order, among those entered under it
    (resolved to that heading, not empty, with at least one row): a later
    table replaces an earlier one of the same heading.  The tables gone
    through are the [table] elements of the page in document order. *)
Theorem tables_keep_the_last_table (R : runtime) (self : SarkariScraper)
    (w : world) (tree : node) :
  http_get w (url self) = Return tree ->
  detail_hrefs_valued R tree = true ->
  exists r,
    snd (scrape_recruitment_detail R self w) = Return r
    /\ NoDup (map fst (tables r))
    /\ (forall h rows,
          dict_get str_eqb (tables r) h = Some rows
          <-> exists before t after,
                css_located R (Tag "table") tree = before ++ t :: after
                /\ find_heading R (fst t) = Some h /\ h <> []
                /\ table_rows R (snd t) = rows /\ rows <> []
                /\ forall t',
                     In t' after -> find_heading R (fst t') = Some h ->
                     table_rows R (snd t') = [])
    /\ css_located R (Tag "table") tree
       = filter (fun t => matches (Tag "table") (snd t)) (located [] tree).
Proof.
  intros Hget Hok. eexists. split.
  - apply (scrape_recruitment_detail_returns R self w tree Hget Hok).
  - cbn [tables]. split; [| split].
    2: { intros h rows. rewrite detail_tables_lookup. split.
      * intros (before & t & after & Hts & Ht & Hafter).
        apply table_entry_some in Ht.
        destruct Ht as (Hh & Hne & Hrows & Hrne).
        exists before, t, after. repeat split; auto.
        intros t' Hin Hh'.
        destruct (table_rows R (snd t')) as [| row rs] eqn:Er;
          [reflexivity |].
        exfalso. apply (Hafter t' (row :: rs) Hin).
        apply table_entry_some. rewrite Er.
        repeat split; auto; discriminate.
      * intros (before & t & after & Hts & Hh & Hne & Hrows & Hrne & Hafter).
        exists before, t, after. split; [exact Hts |]. split.
        -- apply table_entry_some. repeat split; auto.
        -- intros t' rows' Hin Ht'. apply table_entry_some in Ht'.
           destruct Ht' as (Hh' & _ & Hr' & Hne').
           rewrite (Hafter t' Hin Hh') in Hr'. subst rows'.
           contradiction. }
    + apply tables_NoDup. constructor.
    + apply css_located_simple. reflexivity.
Qed.

Lemma tables_keep_the_last_table_witness :
  http_get (answering two_sections_page morning) (url jobs)
  = Return two_sections_page
  /\ detail_hrefs_valued plain two_sections_page = true
  /\ exists r,
       snd (scrape_recruitment_detail plain jobs
              (answering two_sections_page morning)) = Return r
       /\ NoDup (map fst (tables r))
       /\ (forall h rows,
             dict_get str_eqb (tables r) h = Some rows
             <-> exists before t after,
                   css_located plain (Tag "table") two_sections_page
                   = before ++ t :: after
                   /\ find_heading plain (fst t) = Some h /\ h <> []
                   /\ table_rows plain (snd t) = rows /\ rows <> []
                   /\ forall t',
                        In t' after -> find_heading plain (fst t') = Some h ->
                        table_rows plain (snd t') = [])
       /\ css_located plain (Tag "table") two_sections_page
          = filter (fun t => matches (Tag "table") (snd t))
                   (located [] two_sections_page).
Proof.
  split; [reflexivity |]. split; [reflexivity |].
  apply (tables_keep_the_last_table plain jobs
           (answering two_sections_page morning) two_sections_page);
    reflexivity.
Defined.

(** Both tables of [two_sections_page] are entered under
    ["Important Dates"]; the second one stays. *)
Example two_sections_page_tables :
  map (table_entry plain) (css_located plain (Tag "table") two_sections_page)
  = [Some (lit "Important Dates", [[lit "Start"; lit "2026-01-01"]]);
     Some (lit "Important Dates", [[lit "General"; lit "100"]])]
  /\ detail_tables plain two_sections_page
     = [(lit "Important Dates", [[lit "General"; lit "100"]])].
Proof. vm_compute. split; reflexivity. Qed.

Lemma filter_twice {A} (p q : A -> bool) (l : list A) :
  filter p (filter q l) = filter (fun x => p x && q x) l.
Proof.
  induction l as [| x l IH]; cbn; [reflexivity |].
  destruct (q x); cbn; destruct (p x); cbn; rewrite IH; reflexivity.
Qed.

Lemma collected_important (R : runtime) (l : Anchor) :
  has_keyword R l && collected l = is_important R l && truthy (anchor_url l).
Proof.
  unfold collected, is_important.
  destruct (has_keyword R l); cbn [andb]; [| reflexivity].
  destruct (anchor_text l) as [| c t]; cbn [truthy length andb];
    [reflexivity |].
  destruct (truthy (anchor_url l)); cbn [andb];
    [rewrite andb_true_r | rewrite andb_false_r]; reflexivity.
Qed.

(** C7 (as the code has it): on every page the detail extractor runs
    through, [important_links] is, in document order, the links of the
    [a[href]] elements whose trimmed text, lowercased, contains one of
    [apply], [official], [notification], [admit], [result] and is longer
    than three characters, and whose trimmed [href] is not empty; the
    [a[href]] elements are gone through in document order.  A link reading
    ["Apply Online"] passes the text test and one reading ["OK"] fails it,
    whatever the address. *)
Theorem important_links_selected (R : runtime) (self : SarkariScraper)
    (w : world) (tree : node) :
  http_get w (url self) = Return tree ->
  detail_hrefs_valued R tree = true ->
  exists r,
    snd (scrape_recruitment_detail R self w) = Return r
    /\ important_links r
       = filter (fun l => is_important R l && truthy (anchor_url l))
                (map anchor_of (css R (TagAttr "a" "href") tree))
    /\ css R (TagAttr "a" "href") tree
       = filter (matches (TagAttr "a" "href")) (map snd (located [] tree))
    /\ (forall u, is_important R {| anchor_text := lit "Apply Online";
                                    anchor_url := u |} = true)
    /\ (forall u, is_important R {| anchor_text := lit "OK";
                                    anchor_url := u |} = false).
Proof.
  intros Hget Hok. eexists. split.
  - apply (scrape_recruitment_detail_returns R self w tree Hget Hok).
  - cbn [important_links]. split; [| split; [| split]].
    + rewrite filter_twice. apply filter_ext. intros l.
      apply collected_important.
    + apply css_simple. reflexivity.
    + intros u. reflexivity.
    + intros u. unfold is_important. cbn [anchor_text].
      apply andb_false_r.
Qed.

Lemma important_links_selected_witness :
  http_get (answering links_page morning) (url jobs) = Return links_page
  /\ detail_hrefs_valued plain links_page = true
  /\ exists r,
       snd (scrape_recruitment_detail plain jobs
              (answering links_page morning)) = Return r
       /\ important_links r
          = filter (fun l => is_important plain l
                             && truthy (anchor_url l))
                   (map anchor_of (css plain (TagAttr "a" "href") links_page))
       /\ css plain (TagAttr "a" "href") links_page
          = filter (matches (TagAttr "a" "href"))
                   (map snd (located [] links_page))
       /\ (forall u, is_important plain
                       {| anchor_text := lit "Apply Online";
                          anchor_url := u |} = true)
       /\ (forall u, is_important plain
                       {| anchor_text := lit "OK"; anchor_url := u |}
                     = false).
Proof.
  split; [reflexivity |]. split; [reflexivity |].
  apply (important_links_selected plain jobs
           (answering links_page morning) links_page); reflexivity.
Defined.

Example links_page_links :
  res_map (fun r => (links_count r, important_links r))
    (snd (scrape_recruitment_detail plain jobs
            (answering links_page morning)))
  = Return (2%Z, [{| anchor_text := lit "Apply Online";
                     anchor_url := lit "/apply" |}]).
Proof. vm_compute. reflexivity. Qed.

(** C7, as stated, fails on [<a href=" ">Apply Online</a>]: the element is
    an [a[href]], its text holds a keyword and is longer than three
    characters, and it is not among the important links. *)
Lemma important_text_with_blank_href_is_left_out :
  css plain (TagAttr "a" "href") blank_href_page
  = [a_link (Some (lit " ")) (lit "Apply Online")]
  /\ is_important plain
       (anchor_of (a_link (Some (lit " ")) (lit "Apply Online"))) = true
  /\ res_map important_links
       (snd (scrape_recruitment_detail plain jobs
               (answering blank_href_page morning)))
     = Return [].
Proof. vm_compute. repeat split; reflexivity. Qed.

(* ================================================================= *)
(** ** Both extractors *)




(* ----------------------------------------------------------------- *)
(** *** Runs *)

Lemma scrape_aggregator_list_run (R : runtime) (self : SarkariScraper)
    (w : world) :
  scrape_aggregator_list R self w
  = (fst (fetch self w),
     match http_get w (url self) with
     | Raise e => Raise e
     | Return tree =>
         res_map (fun items =>
                    {| listing_url := url self;
                       listing_fetched_at := utcnow_isoformat w ++ lit "Z";
                       listing_title := title_text R tree;
                       items_count := Z.of_nat (length items);
                       items := items |})
                 (aggregator_items R (css R (Tag "li") tree) [] 1)
     end).
Proof.
  unfold scrape_aggregator_list.
  apply (run_method self
           (fun tree => aggregator_items R (css R (Tag "li") tree) [] 1)
           (fun tree items now =>
              {| listing_url := url self;
                 listing_fetched_at := now ++ lit "Z";
                 listing_title := title_text R tree;
                 items_count := Z.of_nat (length items);
                 items := items |})).
Qed.

Lemma scrape_recruitment_detail_run (R : runtime) (self : SarkariScraper)
    (w : world) :
  scrape_recruitment_detail R self w
  = (fst (fetch self w),
     match http_get w (url self) with
     | Raise e => Raise e
     | Return tree =>
         res_map (fun links =>
                    {| detail_url := url self;
                       detail_fetched_at := utcnow_isoformat w ++ lit "Z";
                       detail_title := title_text R tree;
                       tables := detail_tables R tree;
                       links_count := Z.of_nat (length links);
                       important_links := filter (has_keyword R) links |})
                 (detail_links (css R (TagAttr "a" "href") tree) [])
     end).
Proof.
  unfold scrape_recruitment_detail.
  apply (run_method self
           (fun tree => detail_links (css R (TagAttr "a" "href") tree) [])
           (fun tree links now =>
              {| detail_url := url self;
                 detail_fetched_at := now ++ lit "Z";
                 detail_title := title_text R tree;
                 tables := detail_tables R tree;
                 links_count := Z.of_nat (length links);
                 important_links := filter (has_keyword R) links |})).
Qed.

Lemma fetch_events_same (self : SarkariScraper) (w1 w2 : world) :
  http_get w1 (url self) = http_get w2 (url self) ->
  fst (fetch self w1) = fst (fetch self w2).
Proof.
  intros H. unfold fetch. rewrite H.
  destruct (http_get w2 (url self)); reflexivity.
Qed.

(** C8: a run of either extractor sends the request and prints the line of
    its [fetch] and does nothing else to the outside; two runs to which the
    request is answered alike do the same to the outside and end alike,
    with the same exception or with records that agree in every field but
    the time stamp, which is the clock's reading followed by ["Z"]. *)
Theorem runs_agree_up_to_the_stamp (R : runtime) (self : SarkariScraper)
    (w1 w2 : world) :
  http_get w1 (url self) = http_get w2 (url self) ->
  (fst (scrape_aggregator_list R self w1) = fst (fetch self w1)
   /\ fst (scrape_recruitment_detail R self w1) = fst (fetch self w1))
  /\ (fst (scrape_aggregator_list R self w1)
      = fst (scrape_aggregator_list R self w2)
      /\ fst (scrape_recruitment_detail R self w1)
         = fst (scrape_recruitment_detail R self w2))
  /\ res_map listing_unstamped (snd (scrape_aggregator_list R self w1))
     = res_map listing_unstamped (snd (scrape_aggregator_list R self w2))
  /\ res_map detail_unstamped (snd (scrape_recruitment_detail R self w1))
     = res_map detail_unstamped (snd (scrape_recruitment_detail R self w2))
  /\ (forall r, snd (scrape_aggregator_list R self w1) = Return r ->
                listing_fetched_at r = utcnow_isoformat w1 ++ lit "Z")
  /\ (forall d, snd (scrape_recruitment_detail R self w1) = Return d ->
                detail_fetched_at d = utcnow_isoformat w1 ++ lit "Z").
Proof.
  intros H.
  rewrite !scrape_aggregator_list_run, !scrape_recruitment_detail_run.
  cbn [fst snd]. rewrite <- H.
  split; [split; reflexivity |].
  split; [split; apply fetch_events_same, H |].
  destruct (http_get w1 (url self)) as [e | tree].
  - repeat split; intros ? E; discriminate E.
  - split; [| split; [| split]].
    + destruct (aggregator_items R (css R (Tag "li") tree) [] 1); reflexivity.
    + destruct (detail_links (css R (TagAttr "a" "href") tree) []); reflexivity.
    + intros r E.
      destruct (aggregator_items R (css R (Tag "li") tree) [] 1);
        inversion E; reflexivity.
    + intros d E.
      destruct (detail_links (css R (TagAttr "a" "href") tree) []);
        inversion E; reflexivity.
Qed.

Lemma runs_agree_up_to_the_stamp_witness :
  http_get (answering listing_page morning) (url jobs)
  = http_get (answering listing_page evening) (url jobs)
  /\ res_map listing_unstamped
       (snd (scrape_aggregator_list plain jobs
               (answering listing_page morning)))
     = res_map listing_unstamped
         (snd (scrape_aggregator_list plain jobs
                 (answering listing_page evening)))
  /\ res_map detail_unstamped
       (snd (scrape_recruitment_detail plain jobs
               (answering listing_page morning)))
     = res_map detail_unstamped
         (snd (scrape_recruitment_detail plain jobs
                 (answering listing_page evening))).
Proof.
  split; [reflexivity |].
  pose proof (runs_agree_up_to_the_stamp plain jobs
                (answering listing_page morning)
                (answering listing_page evening) eq_refl) as H.
  split; [apply H | apply H].
Defined.

(** The stamp is where the two runs of the witness differ. *)
Example stamps_differ :
  res_map listing_fetched_at
    (snd (scrape_aggregator_list plain jobs
            (answering listing_page morning)))
  = Return (morning ++ lit "Z")
  /\ res_map listing_fetched_at
       (snd (scrape_aggregator_list plain jobs
               (answering listing_page evening)))
     = Return (evening ++ lit "Z").
Proof. vm_compute. split; reflexivity. Qed.

(* ----------------------------------------------------------------- *)
(** *** Pages that end a run early *)

Lemma scrape_aggregator_list_raises (R : runtime) (self : SarkariScraper)
    (w : world) (tree : node) :
  http_get w (url self) = Return tree ->
  listing_hrefs_valued R tree = false ->
  snd (scrape_aggregator_list R self w) = Raise AttributeError.
Proof.
  intros Hget Hbad. rewrite scrape_aggregator_list_run. cbn [snd].
  rewrite Hget, aggregator_items_closed_form.
  unfold listing_hrefs_valued in Hbad. rewrite Hbad. reflexivity.
Qed.

Lemma scrape_recruitment_detail_raises (R : runtime)
    (self : SarkariScraper) (w : world) (tree : node) :
  http_get w (url self) = Return tree ->
  detail_hrefs_valued R tree = false ->
  snd (scrape_recruitment_detail R self w) = Raise AttributeError.
Proof.
  intros Hget Hbad. rewrite scrape_recruitment_detail_run. cbn [snd].
  rewrite Hget, detail_links_closed_form.
  unfold detail_hrefs_valued in Hbad. rewrite Hbad. reflexivity.
Qed.

(** A page without content gives records without title and entries. *)
Example empty_page_records :
  snd (scrape_aggregator_list plain jobs (answering empty_page morning))
  = Return {| listing_url := url jobs;
              listing_fetched_at := morning ++ lit "Z";
              listing_title := None; items_count := 0; items := [] |}
  /\ snd (scrape_recruitment_detail plain jobs
            (answering empty_page morning))
     = Return {| detail_url := url jobs;
                 detail_fetched_at := morning ++ lit "Z";
                 detail_title := None; tables := []; links_count := 0;
                 important_links := [] |}.
Proof. vm_compute. split; reflexivity. Qed.

(** C9 fails on [<ul><li><a href>Job D</a></li></ul>]: the [href] has no
    value, [attributes.get("href", "")] is [None], and both extractors
    end with the [AttributeError] of [None.strip()] instead of a record. *)
Lemma bare_href_raises :
  css plain (TagAttr "a" "href") bare_href_page = [a_link None (lit "Job D")]
  /\ snd (scrape_aggregator_list plain jobs
            (answering bare_href_page morning))
     = Raise AttributeError
  /\ snd (scrape_recruitment_detail plain jobs
            (answering bare_href_page morning))
     = Raise AttributeError.
Proof. vm_compute. repeat split; reflexivity. Qed.

(* ================================================================= *)
(** ** Further properties *)

(* ----------------------------------------------------------------- *)
(** *** Trimmed texts *)

Lemma dropwhile_clean (p : N -> bool) (s : str) :
  match dropwhile p s with
  | [] => True
  | c :: _ => p c = false
  end.
Proof.
  induction s as [| c s IH]; cbn; [exact I |].
  destruct (p c) eqn:E; [exact IH | exact E].
Qed.

Lemma dropwhile_suffix (p : N -> bool) (s : str) :
  exists pre, s = pre ++ dropwhile p s.
Proof.
  induction s as [| c s IH]; cbn; [exists []; reflexivity |].
  destruct (p c).
  - destruct IH as [pre H]. exists (c :: pre). cbn. f_equal. exact H.
  - exists []. reflexivity.
Qed.

Lemma dropwhile_fixed (p : N -> bool) (s : str) :
  match s with [] => True | c :: _ => p c = false end ->
  dropwhile p s = s.
Proof.
  destruct s as [| c s]; cbn; [reflexivity |]. intros ->. reflexivity.
Qed.

Lemma clean_start_dropwhile (s : str) :
  clean_start (dropwhile isspace s) = true.
Proof.
  pose proof (dropwhile_clean isspace s) as H. unfold clean_start.
  destruct (dropwhile isspace s); [reflexivity |]. rewrite H. reflexivity.
Qed.

(** Dropping from the front of the reversal keeps the first character of
    a text that starts clean. *)
Lemma clean_start_rev_dropwhile (t : str) :
  clean_start t = true ->
  clean_start (rev (dropwhile isspace (rev t))) = true.
Proof.
  intros Ht.
  destruct (dropwhile_suffix isspace (rev t)) as [pre Hpre].
  pose proof (dropwhile_clean isspace (rev t)) as Hc.
  destruct (dropwhile isspace (rev t)) as [| c u] eqn:Eu; [reflexivity |].
  assert (Hrev : t = rev (c :: u) ++ rev pre).
  { rewrite <- rev_app_distr, <- Hpre, rev_involutive. reflexivity. }
  destruct (rev (c :: u)) as [| x l] eqn:El.
  - apply (f_equal (@length N)) in El. rewrite length_rev in El.
    discriminate.
  - rewrite Hrev in Ht. exact Ht.
Qed.

Lemma strip_trimmed (s : str) : trimmed (strip s) = true.
Proof.
  unfold trimmed, strip. apply andb_true_iff. split.
  - apply clean_start_rev_dropwhile, clean_start_dropwhile.
  - rewrite rev_involutive. apply clean_start_dropwhile.
Qed.

Lemma trimmed_strip (s : str) : trimmed s = true -> strip s = s.
Proof.
  unfold trimmed, strip, clean_start. intros H.
  apply andb_true_iff in H. destruct H as [H1 H2].
  rewrite (dropwhile_fixed isspace s).
  - rewrite (dropwhile_fixed isspace (rev s)); [apply rev_involutive |].
    destruct (rev s); [exact I |]. apply negb_true_iff, H2.
  - destruct s; [exact I |]. apply negb_true_iff, H1.
Qed.

Lemma strip_idempotent (s : str) : strip (strip s) = strip s.
Proof. apply trimmed_strip, strip_trimmed. Qed.

Lemma href_trimmed (a : node) (u : str) :
  href a = Return u -> trimmed u = true.
Proof.
  unfold href.
  destruct (dict_get String.eqb (attributes a) "href"%string) as [[v |] |];
    intros H; inversion H; apply strip_trimmed.
Qed.

Lemma href_or_empty_trimmed (a : node) : trimmed (href_or_empty a) = true.
Proof.
  unfold href_or_empty. destruct (href a) as [e | u] eqn:E; [reflexivity |].
  apply (href_trimmed a u E).
Qed.

(* ----------------------------------------------------------------- *)
(** *** Elements of a subtree *)

Lemma located_nodes (n : node) :
  forall ups ups', map snd (located ups n) = map snd (located ups' n).
Proof.
  induction n as [data | tag attrs children IH] using node_induction;
    intros ups ups'; cbn [located map snd]; [reflexivity |].
  f_equal. rewrite !flat_map_concat_map, !concat_map, !map_map. f_equal.
  apply map_ext_in. intros c Hc. rewrite Forall_forall in IH.
  apply (IH c Hc).
Qed.

Lemma elements_element (tag : string) (attrs : list (string * option str))
    (children : list node) :
  elements (Element tag attrs children)
  = Element tag attrs children :: flat_map elements children.
Proof.
  unfold elements. cbn [located map snd]. f_equal.
  rewrite !flat_map_concat_map, concat_map, !map_map. f_equal.
  apply map_ext. intros c. apply located_nodes.
Qed.

(** An element of an element of the tree is an element of the tree. *)
Lemma elements_trans (root : node) :
  forall n x, In n (elements root) -> In x (elements n) ->
              In x (elements root).
Proof.
  induction root as [data | tag attrs children IH] using node_induction;
    intros n x Hn Hx.
  - destruct Hn.
  - rewrite elements_element in Hn |- *. destruct Hn as [<- | Hn].
    + rewrite elements_element in Hx. exact Hx.
    + right. apply in_flat_map in Hn. destruct Hn as (c & Hc & Hn).
      apply in_flat_map. exists c. split; [exact Hc |].
      rewrite Forall_forall in IH. apply (IH c Hc n x Hn Hx).
Qed.

Lemma css_In (R : runtime) (s : selector) (n x : node) :
  In x (css R s n) <-> In x (elements n) /\ matches s x = true.
Proof.
  unfold css, elements. rewrite !in_map_iff. split.
  - intros ([anc y] & Heq & Hin). cbn in Heq. subst y.
    apply css_located_In in Hin. destruct Hin as [Hin Hm].
    split; [exists (anc, x); split; [reflexivity | exact Hin] | exact Hm].
  - intros (([anc y] & Heq & Hin) & Hm). cbn in Heq. subst y.
    exists (anc, x). split; [reflexivity |].
    apply css_located_In. split; [exact Hin | exact Hm].
Qed.

Lemma css_first_css (R : runtime) (s : selector) (n x : node) :
  css_first R s n = Some x -> In x (css R s n).
Proof.
  unfold css_first. destruct (css R s n) as [| y l]; [discriminate |].
  intros H. inversion H. left. reflexivity.
Qed.

(** The first link of a list entry of the page is a link of the page. *)
Lemma first_link_of_page (R : runtime) (tree li a : node) :
  In li (css R (Tag "li") tree) ->
  first_link R li = Some a ->
  In a (css R (TagAttr "a" "href") tree).
Proof.
  intros Hli Ha. apply css_first_css, css_In in Ha.
  destruct Ha as [Ha Hm]. apply css_In in Hli. destruct Hli as [Hli _].
  apply css_In. split; [| exact Hm].
  apply (elements_trans tree li a Hli Ha).
Qed.

Lemma detail_valued_listing_valued (R : runtime) (tree : node) :
  detail_hrefs_valued R tree = true -> listing_hrefs_valued R tree = true.
Proof.
  unfold detail_hrefs_valued, listing_hrefs_valued. intros H.
  rewrite forallb_forall in H. apply forallb_forall. intros li Hli.
  unfold li_href_valued. destruct (first_link R li) as [a |] eqn:Ea;
    [| reflexivity].
  apply H. apply (first_link_of_page R tree li a Hli Ea).
Qed.

(* ----------------------------------------------------------------- *)
(** *** How a run ends *)

(** A run that returns a record was answered with a page whose links
    could all be read, and the record is the one built from that page. *)
Lemma scrape_aggregator_list_returned (R : runtime) (self : SarkariScraper)
    (w : world) (r : Listing) :
  snd (scrape_aggregator_list R self w) = Return r ->
  exists tree,
    http_get w (url self) = Return tree
    /\ listing_hrefs_valued R tree = true
    /\ r = {| listing_url := url self;
              listing_fetched_at := utcnow_isoformat w ++ lit "Z";
              listing_title := title_text R tree;
              items_count :=
                Z.of_nat (length (ranked R 1 (filter (accepted R)
                                                (css R (Tag "li") tree))));
              items := ranked R 1 (filter (accepted R)
                                     (css R (Tag "li") tree)) |}.
Proof.
  intros Hr.
  destruct (http_get w (url self)) as [e | tree] eqn:Hget.
  - rewrite scrape_aggregator_list_run in Hr. cbn [snd] in Hr.
    rewrite Hget in Hr. discriminate.
  - exists tree. split; [reflexivity |].
    destruct (listing_hrefs_valued R tree) eqn:Hok.
    + split; [reflexivity |].
      rewrite (scrape_aggregator_list_returns R self w tree Hget Hok) in Hr.
      inversion Hr. reflexivity.
    + rewrite (scrape_aggregator_list_raises R self w tree Hget Hok) in Hr.
      discriminate.
Qed.

Lemma scrape_recruitment_detail_returned (R : runtime)
    (self : SarkariScraper) (w : world) (d : Detail) :
  snd (scrape_recruitment_detail R self w) = Return d ->
  exists tree,
    http_get w (url self) = Return tree
    /\ detail_hrefs_valued R tree = true
    /\ d = {| detail_url := url self;
              detail_fetched_at := utcnow_isoformat w ++ lit "Z";
              detail_title := title_text R tree;
              tables := detail_tables R tree;
              links_count :=
                Z.of_nat (length (filter collected
                                    (map anchor_of
                                       (css R (TagAttr "a" "href") tree))));
              important_links :=
                filter (has_keyword R)
                  (filter collected
                     (map anchor_of (css R (TagAttr "a" "href") tree))) |}.
Proof.
  intros Hd.
  destruct (http_get w (url self)) as [e | tree] eqn:Hget.
  - rewrite scrape_recruitment_detail_run in Hd. cbn [snd] in Hd.
    rewrite Hget in Hd. discriminate.
  - exists tree. split; [reflexivity |].
    destruct (detail_hrefs_valued R tree) eqn:Hok.
    + split; [reflexivity |].
      rewrite (scrape_recruitment_detail_returns R self w tree Hget Hok)
        in Hd.
      inversion Hd. reflexivity.
    + rewrite (scrape_recruitment_detail_raises R self w tree Hget Hok)
        in Hd.
      discriminate.
Qed.


(** X2: on a page the detail extractor runs through, the listing extractor
    runs through as well: whenever [scrape_recruitment_detail] returns a
    record in a world, so does [scrape_aggregator_list]. *)
Theorem detail_run_gives_listing_run (R : runtime) (self : SarkariScraper)
    (w : world) (d : Detail) :
  snd (scrape_recruitment_detail R self w) = Return d ->
  exists r, snd (scrape_aggregator_list R self w) = Return r.
Proof.
  intros Hd.
  destruct (scrape_recruitment_detail_returned R self w d Hd)
    as (tree & Hget & Hok & _).
  eexists.
  apply (scrape_aggregator_list_returns R self w tree Hget
           (detail_valued_listing_valued R tree Hok)).
Qed.

Lemma detail_run_gives_listing_run_witness :
  exists d r,
    snd (scrape_recruitment_detail plain jobs
           (answering listing_page morning)) = Return d
    /\ snd (scrape_aggregator_list plain jobs
              (answering listing_page morning)) = Return r.
Proof.
  eexists.
  destruct (detail_run_gives_listing_run plain jobs
              (answering listing_page morning) _ eq_refl) as [r Hr].
  exists r. split; [reflexivity | exact Hr].
Defined.

(* ----------------------------------------------------------------- *)
(** *** What the items hold *)

Lemma ranked_In (R : runtime) (lis : list node) :
  forall rank it,
    In it (ranked R rank lis) ->
    exists li r, In li lis /\ it = item_of R li r.
Proof.
  induction lis as [| li rest IH]; intros rank it Hin; [destruct Hin |].
  destruct Hin as [<- | Hin].
  - exists li, rank. split; [left |]; reflexivity.
  - destruct (IH _ _ Hin) as (li' & r & Hli & ->).
    exists li', r. split; [right; exact Hli | reflexivity].
Qed.

(** The items of a run that returns, each with the entry it was built
    from. *)
Lemma listing_items_from (R : runtime) (self : SarkariScraper) (w : world)
    (r : Listing) :
  snd (scrape_aggregator_list R self w) = Return r ->
  forall it, In it (items r) ->
    exists li k, accepted R li = true /\ it = item_of R li k.
Proof.
  intros Hr it Hin.
  destruct (scrape_aggregator_list_returned R self w r Hr)
    as (tree & _ & _ & ->).
  cbn [items] in Hin.
  apply ranked_In in Hin. destruct Hin as (li & k & Hli & ->).
  apply filter_In in Hli. destruct Hli as [_ Hacc].
  exists li, k. split; [exact Hacc | reflexivity].
Qed.

Lemma truthy_nonempty {A} (l : list A) : truthy l = true -> l <> [].
Proof. destruct l; [discriminate | intros _; discriminate]. Qed.

Lemma item_of_consistent (R : runtime) (li : node) (k : Z) :
  metadata_consistent (item_of R li k).
Proof.
  unfold metadata_consistent, item_of, parse_metadata.
  destruct (contains marker (li_full_text li)).
  - destruct (search_last_date R (li_full_text li)) as [d |]; cbn.
    + right. right. left. repeat split. exists d. reflexivity.
    + right. left. repeat split.
  - destruct (contains out_marker (li_link_text R li)); cbn.
    + right. right. right. left. repeat split.
    + destruct (contains pending_marker (li_link_text R li)); cbn.
      * right. right. right. right. repeat split.
      * left. repeat split.
Qed.

Lemma li_link_text_trimmed (R : runtime) (li : node) :
  trimmed (li_link_text R li) = true.
Proof.
  unfold li_link_text. destruct (first_link R li); [| reflexivity].
  apply strip_trimmed.
Qed.

Lemma li_link_url_trimmed (R : runtime) (li : node) :
  trimmed (li_link_url R li) = true.
Proof.
  unfold li_link_url. destruct (first_link R li); [| reflexivity].
  apply href_or_empty_trimmed.
Qed.

(** X3: in every record the listing extractor returns, the three metadata
    fields of an item stand in one of five combinations: all absent; type
    [last_date] alone; type [last_date] with a date and the status
    ["Active"]; type [status] with the value ["out"] and the status
    ["Out"]; type [status] with the value ["pending"] and the status
    ["Pending"]. *)
Theorem items_metadata_consistent (R : runtime) (self : SarkariScraper)
    (w : world) (r : Listing) :
  snd (scrape_aggregator_list R self w) = Return r ->
  Forall metadata_consistent (items r).
Proof.
  intros Hr. apply Forall_forall. intros it Hin.
  destruct (listing_items_from R self w r Hr it Hin) as (li & k & _ & ->).
  apply item_of_consistent.
Qed.

Lemma items_metadata_consistent_witness :
  exists r,
    snd (scrape_aggregator_list plain jobs (answering listing_page morning))
    = Return r
    /\ Forall metadata_consistent (items r).
Proof.
  eexists. split; [reflexivity |].
  apply (items_metadata_consistent plain jobs
           (answering listing_page morning) _ eq_refl).
Defined.

(** X4: in every record the listing extractor returns, the title and the
    link of an item are not empty and neither starts nor ends with
    whitespace, so that trimming them again changes nothing; the page title,
    when there is one, is trimmed too. *)
Theorem listing_texts_trimmed (R : runtime) (self : SarkariScraper)
    (w : world) (r : Listing) :
  snd (scrape_aggregator_list R self w) = Return r ->
  Forall (fun it =>
            title it <> [] /\ link it <> []
            /\ trimmed (title it) = true /\ trimmed (link it) = true
            /\ strip (title it) = title it /\ strip (link it) = link it)
         (items r)
  /\ (forall t, listing_title r = Some t -> trimmed t = true).
Proof.
  intros Hr. split.
  - apply Forall_forall. intros it Hin.
    destruct (listing_items_from R self w r Hr it Hin)
      as (li & k & Hacc & ->).
    destruct (item_of_title_link R li k) as [-> ->].
    unfold accepted in Hacc. apply andb_true_iff in Hacc.
    destruct Hacc as [Ht Hu].
    pose proof (li_link_text_trimmed R li) as Tt.
    pose proof (li_link_url_trimmed R li) as Tu.
    split; [apply truthy_nonempty, Ht |].
    split; [apply truthy_nonempty, Hu |].
    split; [exact Tt |]. split; [exact Tu |].
    split; apply trimmed_strip; assumption.
  - destruct (scrape_aggregator_list_returned R self w r Hr)
      as (tree & _ & _ & ->).
    cbn [listing_title]. unfold title_text. intros t Ht.
    destruct (css_first R (Tag "h1") tree); inversion Ht.
    apply strip_trimmed.
Qed.

Lemma listing_texts_trimmed_witness :
  exists r,
    snd (scrape_aggregator_list plain jobs (answering listing_page morning))
    = Return r
    /\ Forall (fun it =>
                 title it <> [] /\ link it <> []
                 /\ trimmed (title it) = true /\ trimmed (link it) = true
                 /\ strip (title it) = title it /\ strip (link it) = link it)
              (items r)
    /\ (forall t, listing_title r = Some t -> trimmed t = true).
Proof.
  eexists. split; [reflexivity |].
  apply (listing_texts_trimmed plain jobs
           (answering listing_page morning) _ eq_refl).
Defined.

(** X5: in every record the listing extractor returns, an item with the
    status ["Active"] carries a date of at least eight characters that
    starts with a digit and ends with the four digits of the year. *)
Theorem active_items_carry_a_date (R : runtime) (self : SarkariScraper)
    (w : world) (r : Listing) :
  snd (scrape_aggregator_list R self w) = Return r ->
  Forall (fun it =>
            status_text it = Some "Active"%string ->
            exists c rest year,
              metadata_value it = Some (c :: rest ++ year)
              /\ isdigit R c = true
              /\ forallb (isdigit R) year = true /\ length year = 4%nat
              /\ (8 <= length (c :: rest ++ year))%nat)
         (items r).
Proof.
  intros Hr. apply Forall_forall. intros it Hin Hact.
  destruct (listing_items_from R self w r Hr it Hin) as (li & k & _ & ->).
  revert Hact. unfold item_of, parse_metadata.
  destruct (contains marker (li_full_text li)).
  - destruct (search_last_date R (li_full_text li)) as [d |] eqn:Es;
      cbn; [intros _ | discriminate].
    apply search_last_date_some in Es. destruct Es as [Ht _].
    destruct Ht as (day & ws1 & month & ws2 & year & -> & Hd & Ld & H1 & L1
                    & Hm & Lm & H2 & L2 & Hy & Ly).
    destruct day as [| c day]; [cbn in Ld; lia |].
    cbn in Hd. apply andb_true_iff in Hd. destruct Hd as [Hc _].
    exists c, (day ++ ws1 ++ month ++ ws2), year.
    split; [cbn; rewrite <- !app_assoc; reflexivity |].
    split; [exact Hc |]. split; [exact Hy |]. split; [exact Ly |].
    cbn [length]. rewrite !length_app. lia.
  - destruct (contains out_marker (li_link_text R li)); cbn;
      [discriminate |].
    destruct (contains pending_marker (li_link_text R li)); cbn;
      discriminate.
Qed.

Lemma active_items_carry_a_date_witness :
  exists r,
    snd (scrape_aggregator_list plain jobs (answering listing_page morning))
    = Return r
    /\ Forall (fun it =>
                 status_text it = Some "Active"%string ->
                 exists c rest year,
                   metadata_value it = Some (c :: rest ++ year)
                   /\ isdigit plain c = true
                   /\ forallb (isdigit plain) year = true
                   /\ length year = 4%nat
                   /\ (8 <= length (c :: rest ++ year))%nat)
              (items r).
Proof.
  eexists. split; [reflexivity |].
  apply (active_items_carry_a_date plain jobs
           (answering listing_page morning) _ eq_refl).
Defined.

(* ----------------------------------------------------------------- *)
(** *** The page title *)

Lemma hd_filter_split {A} (p : A -> bool) (l : list A) (h : A) :
  hd_error (filter p l) = Some h ->
  exists before after,
    l = before ++ h :: after /\ p h = true
    /\ forall x, In x before -> p x = false.
Proof.
  induction l as [| x l IH]; cbn; [discriminate |].
  destruct (p x) eqn:E; cbn.
  - intros H. inversion H; subst. exists [], l.
    repeat split; auto. intros y [].
  - intros H. destruct (IH H) as (before & after & -> & Hp & Hb).
    exists (x :: before), after. repeat split; auto.
    intros y [<- | Hy]; auto.
Qed.

Lemma title_text_spec (R : runtime) (tree : node) :
  (title_text R tree = None
   <-> forall x, In x (elements tree) -> matches (Tag "h1") x = false)
  /\ (forall t,
        title_text R tree = Some t ->
        exists before h after,
          elements tree = before ++ h :: after
          /\ matches (Tag "h1") h = true
          /\ (forall x, In x before -> matches (Tag "h1") x = false)
          /\ t = strip (text h)).
Proof.
  unfold title_text, css_first.
  rewrite (css_simple R (Tag "h1") tree eq_refl). fold (elements tree).
  split.
  - destruct (filter (matches (Tag "h1")) (elements tree)) as [| h l] eqn:E;
      cbn [hd_error option_map].
    + split; [intros _ x Hx | reflexivity].
      destruct (matches (Tag "h1") x) eqn:Em; [| reflexivity].
      assert (Hin : In x (filter (matches (Tag "h1")) (elements tree)))
        by (apply filter_In; split; assumption).
      rewrite E in Hin. destruct Hin.
    + split; [discriminate |]. intros H. exfalso.
      assert (Hin : In h (filter (matches (Tag "h1")) (elements tree)))
        by (rewrite E; left; reflexivity).
      apply filter_In in Hin. destruct Hin as [Hin Hm].
      rewrite (H h Hin) in Hm. discriminate.
  - intros t Ht.
    destruct (hd_error (filter (matches (Tag "h1")) (elements tree)))
      as [h |] eqn:E; [| discriminate].
    cbn in Ht. inversion Ht; subst t.
    destruct (hd_filter_split _ _ _ E) as (before & after & Hl & Hm & Hb).
    exists before, h, after. repeat split; assumption.
Qed.

(** X6: the title of a record is absent exactly when the page has no [h1]
    element; otherwise it is the trimmed text of the first [h1] of the
    page in document order.  Both extractors read it the same way. *)
Theorem record_titles (R : runtime) (self : SarkariScraper) (w : world)
    (r : Listing) (d : Detail) :
  snd (scrape_aggregator_list R self w) = Return r ->
  snd (scrape_recruitment_detail R self w) = Return d ->
  exists tree,
    http_get w (url self) = Return tree
    /\ listing_title r = detail_title d
    /\ (listing_title r = None
        <-> forall x, In x (elements tree) -> matches (Tag "h1") x = false)
    /\ (forall t,
          listing_title r = Some t ->
          exists before h after,
            elements tree = before ++ h :: after
            /\ matches (Tag "h1") h = true
            /\ (forall x, In x before -> matches (Tag "h1") x = false)
            /\ t = strip (text h)).
Proof.
  intros Hr Hd.
  destruct (scrape_aggregator_list_returned R self w r Hr)
    as (tree & Hget & _ & ->).
  destruct (scrape_recruitment_detail_returned R self w d Hd)
    as (tree' & Hget' & _ & ->).
  rewrite Hget in Hget'. inversion Hget'; subst tree'.
  exists tree. split; [exact Hget |]. split; [reflexivity |].
  cbn [listing_title]. apply title_text_spec.
Qed.

Lemma record_titles_witness :
  exists r d tree,
    snd (scrape_aggregator_list plain jobs (answering listing_page morning))
    = Return r
    /\ snd (scrape_recruitment_detail plain jobs
              (answering listing_page morning)) = Return d
    /\ http_get (answering listing_page morning) (url jobs) = Return tree
    /\ listing_title r = detail_title d
    /\ listing_title r = Some (lit "Latest Jobs").
Proof.
  eexists. eexists.
  destruct (record_titles plain jobs (answering listing_page morning)
              _ _ eq_refl eq_refl) as (tree & Hget & Heq & _).
  exists tree. split; [reflexivity |]. split; [reflexivity |].
  split; [exact Hget |]. split; [exact Heq | reflexivity].
Defined.

(* ----------------------------------------------------------------- *)
(** *** What the detail record holds *)

Lemma dict_get_In {K V} (key_eqb : K -> K -> bool)
    (key_eqb_eq : forall a b, key_eqb a b = true <-> a = b)
    (d : list (K * V)) (k : K) (v : V) :
  NoDup (map fst d) -> In (k, v) d -> dict_get key_eqb d k = Some v.
Proof.
  induction d as [| [k0 v0] d IH]; cbn; intros Hnd Hin; [destruct Hin |].
  inversion Hnd as [| ? ? Hnot Hnd']; subst.
  destruct Hin as [Heq | Hin].
  - inversion Heq; subst.
    rewrite (proj2 (key_eqb_eq k k) eq_refl). reflexivity.
  - destruct (key_eqb k k0) eqn:E.
    + apply key_eqb_eq in E. subst k0. exfalso. apply Hnot.
      apply in_map_iff. exists (k, v). split; [reflexivity | exact Hin].
    + apply IH; assumption.
Qed.

Lemma detail_tables_In (R : runtime) (tree : node) (h : str)
    (rows : list (list str)) :
  In (h, rows) (detail_tables R tree) ->
  exists t, In t (css_located R (Tag "table") tree)
            /\ table_entry R t = Some (h, rows).
Proof.
  intros Hin.
  assert (Hget : dict_get str_eqb (detail_tables R tree) h = Some rows).
  { apply (dict_get_In str_eqb str_eqb_eq); [| exact Hin].
    apply tables_NoDup. constructor. }
  apply detail_tables_lookup in Hget.
  destruct Hget as (before & t & after & Hts & Ht & _).
  exists t. split; [| exact Ht].
  rewrite Hts. apply in_or_app. right. left. reflexivity.
Qed.

Lemma find_heading_trimmed (R : runtime) (anc : list node) (h : str) :
  find_heading R anc = Some h -> trimmed h = true.
Proof.
  induction anc as [| prev up IH]; cbn [find_heading]; [discriminate |].
  destruct (css_first R heading_sel prev); [| exact IH].
  intros H. inversion H. apply strip_trimmed.
Qed.

Lemma table_rows_trimmed (R : runtime) (tb : node) :
  Forall (fun cells => cells <> [] /\ Forall (fun c => trimmed c = true) cells)
         (table_rows R tb).
Proof.
  unfold table_rows. apply Forall_forall. intros cells Hin.
  apply filter_In in Hin. destruct Hin as [Hin Hne].
  split; [apply truthy_nonempty, Hne |].
  apply in_map_iff in Hin. destruct Hin as (tr & <- & _).
  unfold row_cells. apply Forall_forall. intros c Hc.
  apply in_map_iff in Hc. destruct Hc as (td & <- & _).
  apply strip_trimmed.
Qed.

(** X7: in every record the detail extractor returns, every heading of
    [tables] is a non-empty trimmed text bound to at least one row, every
    row has at least one cell, every cell is trimmed; and every important
    link has a trimmed text of more than three characters and a trimmed,
    non-empty address. *)
Theorem detail_texts_trimmed (R : runtime) (self : SarkariScraper)
    (w : world) (d : Detail) :
  snd (scrape_recruitment_detail R self w) = Return d ->
  Forall (fun kv =>
            fst kv <> [] /\ trimmed (fst kv) = true /\ snd kv <> []
            /\ Forall (fun cells =>
                         cells <> []
                         /\ Forall (fun c => trimmed c = true) cells)
                      (snd kv))
         (tables d)
  /\ Forall (fun l =>
               trimmed (anchor_text l) = true
               /\ (3 < length (anchor_text l))%nat
               /\ trimmed (anchor_url l) = true /\ anchor_url l <> [])
            (important_links d)
  /\ (forall t, detail_title d = Some t -> trimmed t = true).
Proof.
  intros Hd.
  destruct (scrape_recruitment_detail_returned R self w d Hd)
    as (tree & _ & _ & ->).
  cbn [tables important_links detail_title]. split; [| split].
  - apply Forall_forall. intros [h rows] Hin. cbn [fst snd].
    apply detail_tables_In in Hin. destruct Hin as ([anc tb] & _ & Ht).
    apply table_entry_some in Ht. cbn [fst snd] in Ht.
    destruct Ht as (Hh & Hne & <- & Hrne).
    split; [exact Hne |]. split; [apply (find_heading_trimmed R anc h Hh) |].
    split; [exact Hrne | apply table_rows_trimmed].
  - apply Forall_forall. intros l Hin.
    apply filter_In in Hin. destruct Hin as [Hin _].
    apply filter_In in Hin. destruct Hin as [Hin Hc].
    apply in_map_iff in Hin. destruct Hin as (a & <- & _).
    unfold collected in Hc. cbn [anchor_of anchor_text anchor_url] in *.
    apply andb_true_iff in Hc. destruct Hc as [Hc Hlen].
    apply andb_true_iff in Hc. destruct Hc as [_ Hu].
    split; [apply strip_trimmed |].
    split; [apply Nat.ltb_lt, Hlen |].
    split; [apply href_or_empty_trimmed | apply truthy_nonempty, Hu].
  - unfold title_text. intros t Ht.
    destruct (css_first R (Tag "h1") tree); inversion Ht.
    apply strip_trimmed.
Qed.

Lemma detail_texts_trimmed_witness :
  exists d,
    snd (scrape_recruitment_detail plain jobs
           (answering two_sections_page morning)) = Return d
    /\ Forall (fun kv =>
                 fst kv <> [] /\ trimmed (fst kv) = true /\ snd kv <> []
                 /\ Forall (fun cells =>
                              cells <> []
                              /\ Forall (fun c => trimmed c = true) cells)
                           (snd kv))
              (tables d)
    /\ Forall (fun l =>
                 trimmed (anchor_text l) = true
                 /\ (3 < length (anchor_text l))%nat
                 /\ trimmed (anchor_url l) = true /\ anchor_url l <> [])
              (important_links d)
    /\ (forall t, detail_title d = Some t -> trimmed t = true).
Proof.
  eexists. split; [reflexivity |].
  apply (detail_texts_trimmed plain jobs
           (answering two_sections_page morning) _ eq_refl).
Defined.

(* ----------------------------------------------------------------- *)
(** *** Sizes *)





(* ----------------------------------------------------------------- *)
(** *** The two extractors on one page *)

Lemma item_of_anchor (R : runtime) (li : node) (k : Z) :
  accepted R li = true ->
  exists a,
    first_link R li = Some a
    /\ anchor_of a = {| anchor_text := title (item_of R li k);
                        anchor_url := link (item_of R li k) |}.
Proof.
  intros Hacc. destruct (item_of_title_link R li k) as [-> ->].
  unfold accepted, li_link_text, li_link_url in *.
  destruct (first_link R li) as [a |]; [| discriminate].
  exists a. split; reflexivity.
Qed.

(** X9: when both extractors are run on one page, every item of the
    listing whose title is longer than three characters and, lowercased,
    contains a keyword is among the important links of the detail record,
    with the title as text and the link as address. *)
Theorem keyword_items_are_important_links (R : runtime)
    (self : SarkariScraper) (w : world) (r : Listing) (d : Detail) :
  snd (scrape_aggregator_list R self w) = Return r ->
  snd (scrape_recruitment_detail R self w) = Return d ->
  forall it,
    In it (items r) ->
    (3 < length (title it))%nat ->
    has_keyword R {| anchor_text := title it; anchor_url := link it |} = true ->
    In {| anchor_text := title it; anchor_url := link it |}
       (important_links d).
Proof.
  intros Hr Hd it Hin Hlen Hkw.
  destruct (scrape_aggregator_list_returned R self w r Hr)
    as (tree & Hget & _ & ->).
  destruct (scrape_recruitment_detail_returned R self w d Hd)
    as (tree' & Hget' & _ & ->).
  rewrite Hget in Hget'. inversion Hget'; subst tree'.
  cbn [items] in Hin. cbn [important_links].
  apply ranked_In in Hin. destruct Hin as (li & k & Hli & ->).
  apply filter_In in Hli. destruct Hli as [Hli Hacc].
  destruct (item_of_anchor R li k Hacc) as (a & Ha & Heq).
  apply filter_In. split; [| exact Hkw].
  apply filter_In. split.
  - rewrite <- Heq. apply in_map.
    apply (first_link_of_page R tree li a Hli Ha).
  - destruct (item_of_title_link R li k) as [Et Eu].
    unfold collected. cbn [anchor_text anchor_url].
    unfold accepted in Hacc. rewrite <- Et, <- Eu in Hacc. rewrite Hacc.
    apply Nat.ltb_lt. exact Hlen.
Qed.

Lemma keyword_items_are_important_links_witness :
  exists r d,
    snd (scrape_aggregator_list plain jobs
           (answering (page [el "ul" [el "li" [a_link (Some (lit "/r"))
                                                 (lit "Result 2026")]]])
                      morning)) = Return r
    /\ snd (scrape_recruitment_detail plain jobs
              (answering (page [el "ul" [el "li" [a_link (Some (lit "/r"))
                                                    (lit "Result 2026")]]])
                         morning)) = Return d
    /\ In {| anchor_text := lit "Result 2026"; anchor_url := lit "/r" |}
          (important_links d).
Proof.
  eexists. eexists. split; [reflexivity |]. split; [reflexivity |].
  apply (keyword_items_are_important_links plain jobs
           (answering (page [el "ul" [el "li" [a_link (Some (lit "/r"))
                                                 (lit "Result 2026")]]])
                      morning) _ _ eq_refl eq_refl
           {| rank := 1; title := lit "Result 2026"; link := lit "/r";
              metadata_type := None; metadata_value := None;
              status_text := None |});
    [left; reflexivity | cbn; lia | reflexivity].
Defined.

(* ----------------------------------------------------------------- *)
(** *** Reading a status back *)

(** X10: in every record the listing extractor returns, the status of an
    item can be read back on its title: an item with the status ["Out"]
    has ["– Out"] in its title, and an item with the status ["Pending"]
    has ["– Pending"] in its title and not ["– Out"]; an item of type
    [status] never has the status ["Active"]. *)
Theorem status_shows_in_title (R : runtime) (self : SarkariScraper)
    (w : world) (r : Listing) :
  snd (scrape_aggregator_list R self w) = Return r ->
  Forall (fun it =>
            (status_text it = Some "Out"%string ->
             contains out_marker (title it) = true)
            /\ (status_text it = Some "Pending"%string ->
                contains pending_marker (title it) = true
                /\ contains out_marker (title it) = false)
            /\ (metadata_type it = Some "status"%string ->
                status_category it = Out \/ status_category it = Pending))
         (items r).
Proof.
  intros Hr. apply Forall_forall. intros it Hin.
  destruct (listing_items_from R self w r Hr it Hin) as (li & k & _ & ->).
  destruct (item_of_title_link R li k) as [-> _].
  unfold item_of, parse_metadata.
  destruct (contains marker (li_full_text li)).
  - destruct (search_last_date R (li_full_text li)); cbn;
      repeat split; discriminate.
  - destruct (contains out_marker (li_link_text R li)) eqn:Eo; cbn.
    + split; [intros _; reflexivity |].
      split; [discriminate | intros _; left; reflexivity].
    + destruct (contains pending_marker (li_link_text R li)) eqn:Ep; cbn.
      * split; [discriminate |].
        split; [intros _; split; reflexivity | intros _; right; reflexivity].
      * repeat split; discriminate.
Qed.

Lemma status_shows_in_title_witness :
  exists r,
    snd (scrape_aggregator_list plain jobs (answering listing_page morning))
    = Return r
    /\ Forall (fun it =>
                 (status_text it = Some "Out"%string ->
                  contains out_marker (title it) = true)
                 /\ (status_text it = Some "Pending"%string ->
                     contains pending_marker (title it) = true
                     /\ contains out_marker (title it) = false)
                 /\ (metadata_type it = Some "status"%string ->
                     status_category it = Out
                     \/ status_category it = Pending))
              (items r).
Proof.
  eexists. split; [reflexivity |].
  apply (status_shows_in_title plain jobs
           (answering listing_page morning) _ eq_refl).
Defined.

(* ----------------------------------------------------------------- *)
(** *** Where the headings come from *)

(** The ancestors [located] hands out are elements of the tree (or were
    given from above). *)
Lemma located_ancestors (n : node) :
  forall ups anc t a,
    In (anc, t) (located ups n) -> In a anc ->
    In a ups \/ In a (elements n).
Proof.
  induction n as [data | tag attrs children IH] using node_induction;
    intros ups anc t a Hin Ha; cbn [located] in Hin; [destruct Hin |].
  destruct Hin as [Heq | Hin].
  - inversion Heq; subst. left. exact Ha.
  - apply in_flat_map in Hin. destruct Hin as (c & Hc & Hin).
    rewrite Forall_forall in IH.
    destruct (IH c Hc _ _ _ a Hin Ha) as [[<- | Hup] | Hel].
    + right. rewrite elements_element. left. reflexivity.
    + left. exact Hup.
    + right. rewrite elements_element. right.
      apply in_flat_map. exists c. split; assumption.
Qed.

Lemma find_heading_of_page (R : runtime) (tree : node) (anc : list node)
    (t : node) (s : str) :
  In (anc, t) (located [] tree) ->
  find_heading R anc = Some s ->
  exists h, In h (elements tree) /\ matches heading_sel h = true
            /\ s = strip (text h).
Proof.
  intros Hin Hs. apply find_heading_some in Hs.
  destruct Hs as (near & a & far & h & Hanc & _ & Hh & ->).
  exists h. apply css_first_In in Hh. destruct Hh as [Hh Hm].
  split; [| split; [exact Hm | reflexivity]].
  assert (Ha : In a anc)
    by (rewrite Hanc; apply in_or_app; right; left; reflexivity).
  destruct (located_ancestors tree [] anc t a Hin Ha) as [[] | Hel].
  apply (elements_trans tree a h Hel Hh).
Qed.

(** X11: in every record the detail extractor returns, every heading of
    [tables] is the trimmed text of an [h2], [h3] or [h4] element of the
    page, and the rows bound to it are the rows of a [table] element of
    the page. *)
Theorem tables_come_from_the_page (R : runtime) (self : SarkariScraper)
    (w : world) (d : Detail) :
  snd (scrape_recruitment_detail R self w) = Return d ->
  exists tree,
    http_get w (url self) = Return tree
    /\ Forall (fun kv =>
                 (exists h, In h (elements tree)
                            /\ matches heading_sel h = true
                            /\ fst kv = strip (text h))
                 /\ (exists tb, In tb (elements tree)
                                /\ matches (Tag "table") tb = true
                                /\ snd kv = table_rows R tb))
              (tables d).
Proof.
  intros Hd.
  destruct (scrape_recruitment_detail_returned R self w d Hd)
    as (tree & Hget & _ & ->).
  exists tree. split; [exact Hget |]. cbn [tables].
  apply Forall_forall. intros [h rows] Hin. cbn [fst snd].
  apply detail_tables_In in Hin. destruct Hin as ([anc tb] & Ht & He).
  apply table_entry_some in He. cbn [fst snd] in He.
  destruct He as (Hh & _ & <- & _).
  apply css_located_In in Ht. cbn [snd] in Ht. destruct Ht as [Hloc Hm].
  split.
  - apply (find_heading_of_page R tree anc tb h Hloc Hh).
  - exists tb. split; [| split; [exact Hm | reflexivity]].
    unfold elements. apply in_map_iff. exists (anc, tb).
    split; [reflexivity | exact Hloc].
Qed.

Lemma tables_come_from_the_page_witness :
  exists d tree,
    snd (scrape_recruitment_detail plain jobs
           (answering two_sections_page morning)) = Return d
    /\ http_get (answering two_sections_page morning) (url jobs)
       = Return tree
    /\ Forall (fun kv =>
                 (exists h, In h (elements tree)
                            /\ matches heading_sel h = true
                            /\ fst kv = strip (text h))
                 /\ (exists tb, In tb (elements tree)
                                /\ matches (Tag "table") tb = true
                                /\ snd kv = table_rows plain tb))
              (tables d).
Proof.
  eexists.
  destruct (tables_come_from_the_page plain jobs
              (answering two_sections_page morning) _ eq_refl)
    as (tree & Hget & H).
  exists tree. split; [reflexivity |]. split; [exact Hget | exact H].
Defined.

(* ----------------------------------------------------------------- *)
(** *** The script *)









